(** * A shallow embedding of [main.py]: the LeetCode profile proxy

    The file models the two handlers of [main.py] that contain logic,
    [test_database] (the [/test] probe) and [fetch_leetcode_user] (the
    profile fetcher and normaliser), together with the fragment of Python
    they rely on: JSON values as produced by [r.json()], truthiness, [or],
    [dict.get], dictionary insertion, true division, float multiplication
    and [round(x, 2)] on IEEE 754 binary64 numbers, and exceptions. *)

From Stdlib Require Import ZArith QArith Qpower List String Ascii Bool Lia.
From Stdlib Require Import DecimalString SpecFloat.
Import ListNotations.

Local Open Scope Z_scope.
Set Warnings "-register-all".

(** ** Exceptions *)

(** The exceptions that can leave [fetch_leetcode_user].  [HTTPException] is
    the only one the code raises on purpose; the others are raised by the
    Python runtime (or by [requests]) and nothing catches them. *)
Inductive exn : Type :=
| HTTPException (status_code : Z) (detail : string)
| JSONDecodeError
| TypeError
| AttributeError
| ZeroDivisionError
| OverflowError
| KeyError.

Inductive res (A : Type) : Type :=
| Ok (a : A)
| Raise (e : exn).
Arguments Ok {A} a.
Arguments Raise {A} e.

Definition bind {A B : Type} (c : res A) (k : A -> res B) : res B :=
  match c with
  | Ok a => k a
  | Raise e => Raise e
  end.

Notation "x <- c ;; k" := (bind c (fun x => k))
  (at level 61, c at next level, right associativity).

(** ** Python floats: IEEE 754 binary64 *)

Module Float.

Definition prec : Z := 53.
Definition emax : Z := 1024.
Definition emin : Z := 3 - emax - prec.

(** Exponent of the unit in the last place of the numbers in
    [[2^e, 2^(e+1))]; below [2^(emin+prec-1)] the numbers are subnormal. *)
Definition ulp_exp (e : Z) : Z := Z.max (e - (prec - 1)) emin.

(** [(n/d) / 2^e] as a fraction. *)
Definition scale (n d e : Z) : Z * Z :=
  if 0 <=? e then (n, d * 2 ^ e) else (n * 2 ^ (- e), d).

(** [ilog2 n d] is the integer [e] with [2^e <= n/d < 2^(e+1)]. *)
Definition ilog2 (n d : positive) : Z :=
  let e0 := Z.log2 (Zpos n) - Z.log2 (Zpos d) in
  let '(N, D) := scale (Zpos n) (Zpos d) e0 in
  if D <=? N then e0 else e0 - 1.

(** The integer nearest to [N/D] (for [D > 0]), ties to the even one. *)
Definition rne (N D : Z) : Z :=
  let q := N / D in
  match 2 * (N mod D) ?= D with
  | Lt => q
  | Gt => q + 1
  | Eq => if Z.even q then q else q + 1
  end.

Inductive rounded : Type :=
| RZero
| RFinite (m : positive) (e : Z)
| ROverflow.

(** Round-to-nearest-even of the positive rational [n/d] to binary64: the
    quotient is scaled by the ulp of its binade, rounded to an integer, and
    the result is too large when it reaches [2^emax]. *)
Definition round_pos (n d : positive) : rounded :=
  let fe := ulp_exp (ilog2 n d) in
  let '(N, D) := scale (Zpos n) (Zpos d) fe in
  match rne N D with
  | Zpos m =>
      let '(m', e') :=
        if Zpos m =? 2 ^ prec then (Z.to_pos (2 ^ (prec - 1)), fe + 1)
        else (m, fe) in
      if e' <=? emax - prec then RFinite m' e' else ROverflow
  | _ => RZero
  end.

(** IEEE 754 behaviour on overflow and underflow: infinity and zero. *)
Definition to_float (s : bool) (r : rounded) : spec_float :=
  match r with
  | RZero => S754_zero s
  | RFinite m e => S754_finite s m e
  | ROverflow => S754_infinity s
  end.

(** The fraction [m * 2^e]. *)
Definition frac (m : positive) (e : Z) : positive * positive :=
  if 0 <=? e then (Z.to_pos (Zpos m * 2 ^ e), 1%positive)
  else (m, Z.to_pos (2 ^ (- e))).

(** [x * y] on floats. *)
Definition mul (x y : spec_float) : spec_float :=
  match x, y with
  | S754_nan, _ | _, S754_nan => S754_nan
  | S754_infinity sx, S754_infinity sy => S754_infinity (xorb sx sy)
  | S754_infinity sx, S754_finite sy _ _ => S754_infinity (xorb sx sy)
  | S754_finite sx _ _, S754_infinity sy => S754_infinity (xorb sx sy)
  | S754_infinity _, S754_zero _ => S754_nan
  | S754_zero _, S754_infinity _ => S754_nan
  | S754_finite sx _ _, S754_zero sy => S754_zero (xorb sx sy)
  | S754_zero sx, S754_finite sy _ _ => S754_zero (xorb sx sy)
  | S754_zero sx, S754_zero sy => S754_zero (xorb sx sy)
  | S754_finite sx mx ex, S754_finite sy my ey =>
      let '(n, d) := frac (mx * my) (ex + ey) in
      to_float (xorb sx sy) (round_pos n d)
  end.

(** The IEEE 754 quotient [x / y]; Python raises before it gets here when
    [y] is a zero. *)
Definition div (x y : spec_float) : spec_float :=
  match x, y with
  | S754_nan, _ | _, S754_nan => S754_nan
  | S754_infinity sx, S754_infinity sy => S754_nan
  | S754_infinity sx, S754_finite sy _ _ => S754_infinity (xorb sx sy)
  | S754_finite sx _ _, S754_infinity sy => S754_zero (xorb sx sy)
  | S754_infinity sx, S754_zero sy => S754_infinity (xorb sx sy)
  | S754_zero sx, S754_infinity sy => S754_zero (xorb sx sy)
  | S754_finite sx _ _, S754_zero sy => S754_infinity (xorb sx sy)
  | S754_zero sx, S754_finite sy _ _ => S754_zero (xorb sx sy)
  | S754_zero sx, S754_zero sy => S754_nan
  | S754_finite sx mx ex, S754_finite sy my ey =>
      let '(nx, dx) := frac mx ex in
      let '(ny, dy) := frac my ey in
      to_float (xorb sx sy) (round_pos (nx * dy) (dx * ny))
  end.

(** [True] when the float is [0.0] or [-0.0]. *)
Definition is_zero (x : spec_float) : bool :=
  match x with
  | S754_zero _ => true
  | _ => false
  end.

(** Conversion of a Python [int] to a float ([PyLong_AsDouble]): correctly
    rounded, and an [OverflowError] when the integer is too large. *)
Definition of_int (z : Z) : res spec_float :=
  match z with
  | Z0 => Ok (S754_zero false)
  | Zpos p =>
      match round_pos p 1 with
      | ROverflow => Raise OverflowError
      | r => Ok (to_float false r)
      end
  | Zneg p =>
      match round_pos p 1 with
      | ROverflow => Raise OverflowError
      | r => Ok (to_float true r)
      end
  end.

(** [a / b] on Python [int]s ([long_true_divide]): the correctly rounded
    quotient of the two integers. *)
Definition int_truediv (a b : Z) : res spec_float :=
  match b with
  | Z0 => Raise ZeroDivisionError
  | _ =>
      let s := xorb (a <? 0) (b <? 0) in
      match a with
      | Z0 => Ok (S754_zero s)
      | _ =>
          match round_pos (Z.to_pos (Z.abs a)) (Z.to_pos (Z.abs b)) with
          | ROverflow => Raise OverflowError
          | r => Ok (to_float s r)
          end
      end
  end.

(** [round(x, 2)] on a float ([float.__round__] with [ndigits = 2]):
    infinities and NaN round to themselves; a finite [x] is rounded, ties to
    even, to the nearest multiple of [1/100] of its exact value, and that
    decimal is converted back to the nearest float. *)
Definition round2 (x : spec_float) : res spec_float :=
  match x with
  | S754_finite s m e =>
      let '(n, d) := frac m e in
      match rne (100 * Zpos n) (Zpos d) with
      | Zpos k =>
          match round_pos k 100 with
          | ROverflow => Raise OverflowError
          | r => Ok (to_float s r)
          end
      | _ => Ok (S754_zero s)
      end
  | _ => Ok x
  end.

(** The exact value of a finite float. *)
Definition to_Q (x : spec_float) : Q :=
  match x with
  | S754_finite s m e =>
      (if s then - inject_Z (Zpos m) else inject_Z (Zpos m)) * (2 ^ e)
  | _ => 0
  end%Q.

Definition is_finite (x : spec_float) : bool :=
  match x with
  | S754_zero _ | S754_finite _ _ _ => true
  | _ => false
  end.

End Float.

(** ** JSON values, as [r.json()] builds them *)

(** A [dict] is kept as the list of its items in insertion order. *)
Inductive json : Type :=
| JNull
| JBool (b : bool)
| JInt (z : Z)
| JFloat (f : spec_float)
| JStr (s : string)
| JArr (l : list json)
| JObj (o : list (string * json)).

Section Dict.
Context {K V : Type} (eqb : K -> K -> bool).

(** [d.get(k)], [None] standing for an absent key. *)
Fixpoint dict_get (d : list (K * V)) (k : K) : option V :=
  match d with
  | [] => None
  | (k', v) :: d' => if eqb k' k then Some v else dict_get d' k
  end.

(** [d[k] = v]: an existing key keeps its place and takes the new value,
    a new key goes to the end. *)
Fixpoint dict_set (d : list (K * V)) (k : K) (v : V) : list (K * V) :=
  match d with
  | [] => [(k, v)]
  | (k', v') :: d' =>
      if eqb k' k then (k', v) :: d' else (k', v') :: dict_set d' k v
  end.

Definition dict_keys (d : list (K * V)) : list K := map fst d.
End Dict.

Local Open Scope string_scope.
Local Open Scope Z_scope.

(** ** The Python operations the handlers use *)

(** [bool(v)]. *)
Definition truthy (v : json) : bool :=
  match v with
  | JNull => false
  | JBool b => b
  | JInt z => negb (z =? 0)
  | JFloat f => negb (Float.is_zero f)
  | JStr s => negb (String.eqb s "")
  | JArr l => match l with [] => false | _ => true end
  | JObj o => match o with [] => false | _ => true end
  end.

(** [a or b]. *)
Definition py_or (a b : json) : json := if truthy a then a else b.

(** [o.get(k, default)] on a [dict]. *)
Definition get_or (o : list (string * json)) (k : string) (default : json)
  : json :=
  match dict_get String.eqb o k with
  | Some x => x
  | None => default
  end.

(** [v.get(k, default)]: only a [dict] has the method. *)
Definition py_get (v : json) (k : string) (default : json) : res json :=
  match v with
  | JObj o => Ok (get_or o k default)
  | _ => Raise AttributeError
  end.

(** [needle in hay] on strings: [needle] occurs in [hay]. *)
Fixpoint str_contains (needle hay : string) : bool :=
  if prefix needle hay then true
  else match hay with
       | EmptyString => false
       | String _ hay' => str_contains needle hay'
       end.

Definition is_str (k : string) (v : json) : bool :=
  match v with
  | JStr s => String.eqb s k
  | _ => false
  end.

(** [k in v] for a string [k]: key membership in a [dict], element
    membership in a [list], substring test on a [str]; the other JSON values
    are not containers. *)
Definition py_in (k : string) (v : json) : res bool :=
  match v with
  | JObj o =>
      Ok match dict_get String.eqb o k with Some _ => true | None => false end
  | JArr l => Ok (existsb (is_str k) l)
  | JStr s => Ok (str_contains k s)
  | _ => Raise TypeError
  end.

(** [v[k]] for a string [k]; the key is known to be present where the code
    subscripts a [dict]. *)
Definition py_getitem (v : json) (k : string) : res json :=
  match v with
  | JObj o =>
      match dict_get String.eqb o k with
      | Some x => Ok x
      | None => Raise KeyError
      end
  | _ => Raise TypeError
  end.

(** [for item in v]: the elements of a [list], the keys of a [dict], the
    characters of a [str]. *)
Fixpoint chars (s : string) : list json :=
  match s with
  | EmptyString => []
  | String c s' => JStr (String c EmptyString) :: chars s'
  end.

Definition py_iter (v : json) : res (list json) :=
  match v with
  | JArr l => Ok l
  | JObj o => Ok (map (fun kv => JStr (fst kv)) o)
  | JStr s => Ok (chars s)
  | _ => Raise TypeError
  end.

(** Numbers: [bool] is a subclass of [int]. *)
Inductive num : Type :=
| NInt (z : Z)
| NFloat (f : spec_float).

Definition as_num (v : json) : option num :=
  match v with
  | JBool b => Some (NInt (if b then 1 else 0)%Z)
  | JInt z => Some (NInt z)
  | JFloat f => Some (NFloat f)
  | _ => None
  end.

(** [x / y] on floats: Python raises on a zero divisor. *)
Definition float_truediv (x y : spec_float) : res spec_float :=
  if Float.is_zero y then Raise ZeroDivisionError else Ok (Float.div x y).

(** [a / b]: always a float on numbers, a [TypeError] otherwise. *)
Definition py_truediv (a b : json) : res spec_float :=
  match as_num a, as_num b with
  | Some (NInt x), Some (NInt y) => Float.int_truediv x y
  | Some (NFloat x), Some (NFloat y) => float_truediv x y
  | Some (NFloat x), Some (NInt y) =>
      fy <- Float.of_int y ;; float_truediv x fy
  | Some (NInt x), Some (NFloat y) =>
      fx <- Float.of_int x ;; float_truediv fx y
  | _, _ => Raise TypeError
  end.

(** [x * n] for a float [x] and an [int] [n]. *)
Definition float_mul_int (x : spec_float) (n : Z) : res spec_float :=
  fn <- Float.of_int n ;; Ok (Float.mul x fn).

(** [s.lower()] on ASCII letters. *)
Definition lower_ascii (c : ascii) : ascii :=
  let n := nat_of_ascii c in
  if ((65 <=? n) && (n <=? 90))%nat then ascii_of_nat (n + 32) else c.

Fixpoint lower (s : string) : string :=
  match s with
  | EmptyString => EmptyString
  | String c s' => String (lower_ascii c) (lower s')
  end.

(** [str(n)] for an [int]. *)
Definition str_of_int (z : Z) : string := NilZero.string_of_int (Z.to_int z).

(** ** Dictionary keys *)

(** Python compares dictionary keys by value: [True], [1] and [1.0] are one
    key, [0.0] and [-0.0] are the key [0].  [hkey] is the value a key stands
    for; lists and dicts are unhashable. *)
Inductive hkey : Type :=
| KNone
| KStr (s : string)
| KInt (z : Z)
| KFrac (s : bool) (m : positive) (e : Z)
| KInf (s : bool)
| KNan.

(** [m * 2^e] with [e < 0], reduced to an odd mantissa or to an integer. *)
Fixpoint reduce (m : positive) (e : Z) : positive * Z :=
  match m with
  | xO m' => if e <? 0 then reduce m' (e + 1) else (m, e)
  | _ => (m, e)
  end.

Definition float_key (f : spec_float) : hkey :=
  match f with
  | S754_zero _ => KInt 0
  | S754_infinity s => KInf s
  | S754_nan => KNan
  | S754_finite s m e =>
      let '(m', e') := reduce m e in
      if 0 <=? e' then KInt ((if s then -1 else 1) * (Zpos m' * 2 ^ e'))
      else KFrac s m' e'
  end%Z.

Definition hash_key (v : json) : res hkey :=
  match v with
  | JNull => Ok KNone
  | JBool b => Ok (KInt (if b then 1 else 0)%Z)
  | JInt z => Ok (KInt z)
  | JFloat f => Ok (float_key f)
  | JStr s => Ok (KStr s)
  | JArr _ | JObj _ => Raise TypeError
  end.

Definition hkey_eqb (a b : hkey) : bool :=
  match a, b with
  | KNone, KNone => true
  | KStr s, KStr t => String.eqb s t
  | KInt x, KInt y => (x =? y)%Z
  | KFrac s m e, KFrac s' m' e' =>
      Bool.eqb s s' && (m =? m')%positive && (e =? e')%Z
  | KInf s, KInf s' => Bool.eqb s s'
  | KNan, KNan => true
  | _, _ => false
  end.

(** ** Slices of strings *)

(** A [str] is kept as its UTF-8 encoding, so a character is a lead byte
    followed by its continuation bytes [10xxxxxx]. *)
Definition is_continuation (c : ascii) : bool :=
  let n := nat_of_ascii c in ((128 <=? n) && (n <? 192))%nat.

(** [s[:n]]: the first [n] characters of [s], all of [s] when it has
    fewer. *)
Fixpoint take_chars (n : nat) (s : string) : string :=
  match s with
  | EmptyString => EmptyString
  | String c s' =>
      if is_continuation c then String c (take_chars n s')
      else match n with
           | O => EmptyString
           | S n' => String c (take_chars n' s')
           end
  end.

(** [len(s)]: the number of characters of [s]. *)
Fixpoint count_chars (s : string) : nat :=
  match s with
  | EmptyString => O
  | String c s' =>
      if is_continuation c then count_chars s' else S (count_chars s')
  end.

(** ** [/test]: the database probe *)

Module Probe.

(** What the probe can catch: [ImportError] has a handler of its own, every
    other [Exception] is known by its [str(e)].  Exceptions outside the
    [Exception] hierarchy ([KeyboardInterrupt], [SystemExit]) are not
    modelled. *)
Inductive py_exception : Type :=
| ImportErr (msg : string)
| Exc (msg : string).

(** [getattr(db, 'name')]. *)
Inductive attribute : Type :=
| AttrMissing
| AttrValue (v : json)
| AttrRaises (e : py_exception).

Record database : Type := {
  db_name : attribute;
  list_collection_names : py_exception + list json
}.

(** The state of the process the probe looks at: what
    [from database import db] does, and the environment variables. *)
Record environment : Type := {
  import_db : py_exception + option database;
  getenv : string -> option string
}.

Definition dict : Type := list (string * json).

(** Statements that update [response] and may raise. *)
Definition M (A : Type) : Type := dict -> dict * (py_exception + A).

Definition ret {A : Type} (a : A) : M A := fun r => (r, inr a).

Definition raise {A : Type} (e : py_exception) : M A := fun r => (r, inl e).

Definition mbind {A B : Type} (c : M A) (k : A -> M B) : M B :=
  fun r =>
    match c r with
    | (r', inr a) => k a r'
    | (r', inl e) => (r', inl e)
    end.

Definition lift {A : Type} (c : py_exception + A) : M A :=
  fun r => (r, c).

(** [response[k] = v]. *)
Definition set_item (k : string) (v : json) : M unit :=
  fun r => (dict_set String.eqb r k v, inr tt).

(** [try: body  except ...: handler(e)]; [handler] returns [None] for an
    exception no clause matches. *)
Definition try_except {A : Type} (body : M A)
    (handler : py_exception -> option (M A)) : M A :=
  fun r =>
    match body r with
    | (r', inl e) =>
        match handler e with
        | Some h => h r'
        | None => (r', inl e)
        end
    | done => done
    end.

Notation "x <~ c ;; k" := (mbind c (fun x => k))
  (at level 61, c at next level, right associativity).
Notation "c ;;; k" := (mbind c (fun _ => k))
  (at level 61, right associativity).

(** [str(e)[:50]]. *)
Definition str50 (e : py_exception) : string :=
  match e with
  | ImportErr msg | Exc msg => take_chars 50 msg
  end.

Definition os_getenv (env : environment) (k : string) : bool :=
  match getenv env k with
  | Some v => negb (String.eqb v "")
  | None => false
  end.

Definition initial_response : dict :=
  [("backend", JStr "✅ Running");
   ("database", JStr "❌ Not Available");
   ("database_url", JNull);
   ("database_name", JNull);
   ("connection_status", JStr "Not Connected");
   ("collections", JArr [])].

Definition connectivity_check (db : database) : M unit :=
  try_except
    (collections <~ lift (list_collection_names db) ;;
     set_item "collections" (JArr (firstn 10 collections)) ;;;
     set_item "database" (JStr "✅ Connected & Working"))
    (fun e =>
       Some (set_item "database"
               (JStr ("⚠️  Connected but Error: " ++ str50 e)))).

Definition probe_body (env : environment) : M unit :=
  db <~ lift (import_db env) ;;
  match db with
  | Some db =>
      set_item "database" (JStr "✅ Available") ;;;
      set_item "database_url" (JStr "✅ Configured") ;;;
      name <~ match db_name db with
              | AttrValue v => ret v
              | AttrMissing => ret (JStr "✅ Connected")
              | AttrRaises e => raise e
              end ;;
      set_item "database_name" name ;;;
      set_item "connection_status" (JStr "Connected") ;;;
      connectivity_check db
  | None => set_item "database" (JStr "⚠️  Available but not initialized")
  end.

Definition test_database (env : environment) : py_exception + dict :=
  snd
   ((try_except (probe_body env)
     (fun e =>
        match e with
        | ImportErr _ =>
            Some (set_item "database"
                    (JStr "❌ Database module not found (run enable-database first)"))
        | Exc _ =>
            Some (set_item "database" (JStr ("❌ Error: " ++ str50 e)))
        end) ;;;
   set_item "database_url"
     (JStr (if os_getenv env "DATABASE_URL" then "✅ Set" else "❌ Not Set")) ;;;
   set_item "database_name"
     (JStr (if os_getenv env "DATABASE_NAME" then "✅ Set" else "❌ Not Set")) ;;;
   (fun response => (response, inr response)))
    initial_response).

End Probe.

(** ** [fetch_leetcode_user] *)

Definition LEETCODE_GRAPHQL_URL : string := "https://leetcode.com/graphql".

Definition LEETCODE_QUERY : list (string * json) :=
  [("query", JStr "
    query getUserProfile($username: String!) {
      matchedUser(username: $username) {
        username
        profile {
          ranking
          reputation
          starRating
          aboutMe
          userAvatar
          realName
          school
          company
          jobTitle
          countryName
          websites
          skillTags
        }
        badges {
          id
          name
          icon
        }
        submitStatsGlobal {
          acSubmissionNum { difficulty count submissions }
          totalSubmissionNum { difficulty count submissions }
        }
      }
      userContestRanking(username: $username) {
        rating
        ranking
        attendedContestsCount
        globalRanking
        totalParticipants
        topPercentage
      }
    }
    ");
   ("variables", JObj [("username", JStr "")])].

(** The reply of the upstream: its status code and what [r.json()] does,
    [None] when the body is not JSON and the call raises its decoding error.
    The other ways the parser can fail on a body (an integer literal beyond
    the interpreter's digit limit, nesting beyond its recursion limit) are
    not modelled: what is stated of a parsed body is stated of a body the
    parser returned. *)
Record response : Type := {
  status_code : Z;
  r_json : option json
}.

(** [{item.get("difficulty", "All"): item for item in lst}]. *)
Fixpoint by_diff_items (items : list json) (acc : list (hkey * json))
  : res (list (hkey * json)) :=
  match items with
  | [] => Ok acc
  | item :: rest =>
      k <- py_get item "difficulty" (JStr "All") ;;
      h <- hash_key k ;;
      by_diff_items rest (dict_set hkey_eqb acc h item)
  end.

Definition by_diff (lst : json) : res (list (hkey * json)) :=
  items <- py_iter lst ;;
  by_diff_items items [].

(** [m.get(diff, {})] on a mapping built by [by_diff]. *)
Definition map_get (m : list (hkey * json)) (diff : string) : json :=
  match dict_get hkey_eqb m (KStr diff) with
  | Some item => item
  | None => JObj []
  end.

(** [round((ac / tot * 100), 2) if tot else 0.0]. *)
Definition acceptance_rate (ac tot : json) : res spec_float :=
  if truthy tot then
    q <- py_truediv ac tot ;;
    p <- float_mul_int q 100 ;;
    Float.round2 p
  else Ok (S754_zero false).

(** One turn of the loop over the difficulties: the record stored under
    [diff.lower()]. *)
Definition bucket (ac_map total_map : list (hkey * json)) (diff : string)
  : res json :=
  ac <- py_get (map_get ac_map diff) "count" (JInt 0) ;;
  tot <- py_get (map_get total_map diff) "count" (JInt 0) ;;
  submissions <- py_get (map_get total_map diff) "submissions" (JInt 0) ;;
  acceptance <- acceptance_rate ac tot ;;
  Ok (JObj [("solved", ac);
            ("total", tot);
            ("acceptanceRate", JFloat acceptance);
            ("submissions", submissions)]).

Fixpoint build_stats (ac_map total_map : list (hkey * json))
    (diffs : list string) (stats : list (string * json))
  : res (list (string * json)) :=
  match diffs with
  | [] => Ok stats
  | diff :: rest =>
      b <- bucket ac_map total_map diff ;;
      build_stats ac_map total_map rest
        (dict_set String.eqb stats (lower diff) b)
  end.

Definition difficulties : list string := ["All"; "Easy"; "Medium"; "Hard"].

(** The part of [fetch_leetcode_user] after the [matchedUser] check. *)
Definition shape (data matched : json) : res json :=
  d <- py_get data "data" (JObj []) ;;
  contest <- py_get d "userContestRanking" JNull ;;
  profile <- py_get matched "profile" (JObj []) ;;
  sg <- py_get matched "submitStatsGlobal" (JObj []) ;;
  ac_list <- py_get sg "acSubmissionNum" (JArr []) ;;
  sg' <- py_get matched "submitStatsGlobal" (JObj []) ;;
  total_list <- py_get sg' "totalSubmissionNum" (JArr []) ;;
  ac_map <- by_diff ac_list ;;
  total_map <- by_diff total_list ;;
  stats <- build_stats ac_map total_map difficulties [] ;;
  username <- py_get matched "username" JNull ;;
  realName <- py_get profile "realName" JNull ;;
  name <- (if truthy realName then Ok realName
           else py_get matched "username" JNull) ;;
  avatar <- py_get profile "userAvatar" JNull ;;
  ranking <- py_get profile "ranking" JNull ;;
  reputation <- py_get profile "reputation" JNull ;;
  starRating <- py_get profile "starRating" JNull ;;
  about <- py_get profile "aboutMe" JNull ;;
  company <- py_get profile "company" JNull ;;
  jobTitle <- py_get profile "jobTitle" JNull ;;
  school <- py_get profile "school" JNull ;;
  country <- py_get profile "countryName" JNull ;;
  websites <- py_get profile "websites" JNull ;;
  skills <- py_get profile "skillTags" JNull ;;
  badges <- py_get matched "badges" JNull ;;
  Ok (JObj [("username", username);
            ("name", name);
            ("avatar", avatar);
            ("ranking", ranking);
            ("reputation", reputation);
            ("starRating", starRating);
            ("about", about);
            ("company", company);
            ("jobTitle", jobTitle);
            ("school", school);
            ("country", country);
            ("websites", py_or websites (JArr []));
            ("skills", py_or skills (JArr []));
            ("badges", py_or badges (JArr []));
            ("stats", JObj stats);
            ("contest", py_or contest JNull)]).

(** ["errors" in data and data["errors"]], as the [if] sees it. *)
Definition has_errors (data : json) : res bool :=
  present <- py_in "errors" data ;;
  if present then
    errors <- py_getitem data "errors" ;;
    Ok (truthy errors)
  else Ok false.

(** [payload = LEETCODE_QUERY.copy(); payload["variables"] = {...}]. *)
Definition payload (username : string) : json :=
  JObj (dict_set String.eqb LEETCODE_QUERY "variables"
          (JObj [("username", JStr username)])).

Section Fetch.

(** [requests.post(url, json=payload, timeout=t)], the one call to the
    outside: it returns the reply or raises a [requests.RequestException],
    known by its [str(e)]. *)
Variable requests_post : string -> json -> Z -> string + response.

Definition fetch_leetcode_user (username : string) : res json :=
  r <- match requests_post LEETCODE_GRAPHQL_URL (payload username) 12 with
       | inl e =>
           Raise (HTTPException 502 ("Failed to reach LeetCode: " ++ e))
       | inr r => Ok r
       end ;;
  if negb (status_code r =? 200) then
    Raise (HTTPException 502
             ("LeetCode API error: HTTP " ++ str_of_int (status_code r)))
  else
    data <- match r_json r with
            | Some data => Ok data
            | None => Raise JSONDecodeError
            end ;;
    errors <- has_errors data ;;
    if errors then
      Raise (HTTPException 404 "User not found or LeetCode error")
    else
      d <- py_get data "data" (JObj []) ;;
      matched <- py_get d "matchedUser" JNull ;;
      if negb (truthy matched) then
        Raise (HTTPException 404 "User not found")
      else shape data matched.

End Fetch.

(** [get_leetcode_user], the handler of [/api/leetcode/{username}]. *)
Definition get_leetcode_user
    (requests_post : string -> json -> Z -> string + response)
    (username : string) : res json :=
  fetch_leetcode_user requests_post username.


(** ** Reading JSON values in statements *)

(** The member [k] of an object, [None] when [v] is not an object or has no
    such member. *)
Definition field (v : json) (k : string) : option json :=
  match v with
  | JObj o => dict_get String.eqb o k
  | _ => None
  end.

(** The value reached from [v] through the members [ks]. *)
Fixpoint path (v : json) (ks : list string) : option json :=
  match ks with
  | [] => Some v
  | k :: ks' =>
      match field v k with
      | Some x => path x ks'
      | None => None
      end
  end.

(** An absent value read as Python's [None]. *)
Definition or_null (v : option json) : json :=
  match v with
  | Some x => x
  | None => JNull
  end.

(** [v == 0] for a JSON value [v]. *)
Definition py_is_zero (v : json) : bool :=
  match v with
  | JBool b => negb b
  | JInt z => z =? 0
  | JFloat f => Float.is_zero f
  | _ => false
  end.

(** The upstream of the tests: a fixed reply. *)
Definition reply (status : Z) (body : option json)
  : string -> json -> Z -> string + response :=
  fun _ _ _ => inr {| status_code := status; r_json := body |}.

(** The [dict] literal at the end of [fetch_leetcode_user], in terms of the
    matched user [m], its profile [p], the [data] member [dd] and [stats]. *)
Definition result_dict (dd m p stats : list (string * json)) : json :=
  JObj [("username", get_or m "username" JNull);
        ("name", if truthy (get_or p "realName" JNull)
                 then get_or p "realName" JNull
                 else get_or m "username" JNull);
        ("avatar", get_or p "userAvatar" JNull);
        ("ranking", get_or p "ranking" JNull);
        ("reputation", get_or p "reputation" JNull);
        ("starRating", get_or p "starRating" JNull);
        ("about", get_or p "aboutMe" JNull);
        ("company", get_or p "company" JNull);
        ("jobTitle", get_or p "jobTitle" JNull);
        ("school", get_or p "school" JNull);
        ("country", get_or p "countryName" JNull);
        ("websites", py_or (get_or p "websites" JNull) (JArr []));
        ("skills", py_or (get_or p "skillTags" JNull) (JArr []));
        ("badges", py_or (get_or m "badges" JNull) (JArr []));
        ("stats", JObj stats);
        ("contest", py_or (get_or dd "userContestRanking" JNull) JNull)].

(** A record of the [stats] mapping. *)
Definition is_bucket (b : json) : Prop :=
  exists ac tot f submissions,
    b = JObj [("solved", ac);
              ("total", tot);
              ("acceptanceRate", JFloat f);
              ("submissions", submissions)].

(** The sample body of the specification, with an unexpected difficulty and
    a duplicate added. *)
Definition sample_body : json :=
  JObj [("data", JObj [("matchedUser", JObj
    [("username", JStr "alice");
     ("submitStatsGlobal", JObj
        [("acSubmissionNum", JArr
            [JObj [("difficulty", JStr "Easy"); ("count", JInt 7)];
             JObj [("difficulty", JStr "Extreme"); ("count", JInt 3)];
             JObj [("difficulty", JStr "Easy"); ("count", JInt 10)]]);
         ("totalSubmissionNum", JArr
            [JObj [("difficulty", JStr "Easy"); ("count", JInt 20);
                   ("submissions", JInt 25)]])])])])].

(** The status the probe is to report under [database], case by case: the
    module is missing, the import fails otherwise, the handle is null, the
    connectivity check throws, or all is well. *)
Definition expected_status (env : Probe.environment) : string :=
  match Probe.import_db env with
  | inl (Probe.ImportErr _) =>
      "❌ Database module not found (run enable-database first)"
  | inl (Probe.Exc msg) => "❌ Error: " ++ take_chars 50 msg
  | inr None => "⚠️  Available but not initialized"
  | inr (Some db) =>
      match Probe.db_name db with
      | Probe.AttrRaises (Probe.ImportErr _) =>
          "❌ Database module not found (run enable-database first)"
      | Probe.AttrRaises (Probe.Exc msg) =>
          "❌ Error: " ++ take_chars 50 msg
      | _ =>
          match Probe.list_collection_names db with
          | inl e => "⚠️  Connected but Error: " ++ Probe.str50 e
          | inr _ => "✅ Connected & Working"
          end
      end
  end.

Definition set_or_not (b : bool) : json :=
  JStr (if b then "✅ Set" else "❌ Not Set").

(** The key [by_diff] files an item under. *)
Definition item_key (item : json) : res hkey :=
  k <- py_get item "difficulty" (JStr "All") ;;
  hash_key k.

Definition has_key (k : hkey) (item : json) : bool :=
  match item_key item with
  | Ok h => hkey_eqb h k
  | Raise _ => false
  end.

(** The last item of [items] filed under [k]. *)
Definition last_with_key (items : list json) (k : hkey) : option json :=
  find (has_key k) (rev items).

(** A float that is finite, not negative and at most the integer [K]. *)
Definition below (K : Z) (f : spec_float) : Prop :=
  match f with
  | S754_zero _ => True
  | S754_finite false m e => e <= 0 /\ Zpos m <= K * 2 ^ (- e)
  | _ => False
  end.

(** The computation does not end in a [ZeroDivisionError]. *)
Definition no_zde {A : Type} (c : res A) : Prop :=
  c <> Raise ZeroDivisionError.


(** Equality of floats as data, and a few floats (zeros, infinities, NaN,
    subnormal, normal and extreme numbers) on which the operations of
    [Float] are compared with those of the standard library. *)
Definition sf_eqb (a b : spec_float) : bool :=
  match a, b with
  | S754_zero s, S754_zero t => Bool.eqb s t
  | S754_infinity s, S754_infinity t => Bool.eqb s t
  | S754_nan, S754_nan => true
  | S754_finite s m e, S754_finite t n f =>
      Bool.eqb s t && (m =? n)%positive && (e =? f)
  | _, _ => false
  end.

Definition float_samples : list spec_float :=
  [S754_zero false; S754_zero true; S754_infinity false; S754_infinity true;
   S754_nan;
   S754_finite false 4503599627370496 (-52);
   S754_finite true 6755399441055744 (-51);
   S754_finite false 7036874417766400 (-46);
   S754_finite false 1 (-1074);
   S754_finite false 3 (-1074);
   S754_finite false 4503599627370496 (-1074);
   S754_finite false 9007199254740991 971;
   S754_finite true 6004799503160661 (-54);
   S754_finite false 4691249611844266 (-47);
   S754_finite false 4503599627370497 (-1000)].

(** ** Vocabulary of the further properties *)

(** Every exception the computation can end in satisfies [P]. *)
Definition raises_only {A : Type} (P : exn -> Prop) (c : res A) : Prop :=
  forall e, c = Raise e -> P e.

(** The exceptions of the Python runtime that the shaping code can meet. *)
Definition runtime_error (e : exn) : Prop :=
  e = TypeError \/ e = AttributeError \/ e = OverflowError.

(** The exceptions [by_diff] can meet. *)
Definition lookup_error (e : exn) : Prop :=
  e = TypeError \/ e = AttributeError.

(** The body has an [errors] member that is truthy. *)
Definition errors_reported (o : list (string * json)) : Prop :=
  exists e, dict_get String.eqb o "errors" = Some e /\ truthy e = true.

(** The [errors] member as the [if] reads it: truthy or not, [False] when
    absent. *)
Definition errors_truthy (o : list (string * json)) : bool :=
  match dict_get String.eqb o "errors" with
  | Some e => truthy e
  | None => false
  end.

(** The members of the result copied from the profile: the name in the
    result and the name upstream. *)
Definition profile_fields : list (string * string) :=
  [("avatar", "userAvatar"); ("ranking", "ranking");
   ("reputation", "reputation"); ("starRating", "starRating");
   ("about", "aboutMe"); ("company", "company"); ("jobTitle", "jobTitle");
   ("school", "school"); ("country", "countryName")].

(** The list members of the result, with the place of each one under
    [matchedUser]. *)
Definition list_fields : list (string * list string) :=
  [("websites", ["profile"; "websites"]);
   ("skills", ["profile"; "skillTags"]);
   ("badges", ["badges"])].

(** The keys of the result, in order. *)
Definition result_keys : list string :=
  ["username"; "name"; "avatar"; "ranking"; "reputation"; "starRating";
   "about"; "company"; "jobTitle"; "school"; "country"; "websites";
   "skills"; "badges"; "stats"; "contest"].

(** A richer reply: a profile with a real name, links and a contest
    ranking. *)
Definition rich_body : json :=
  JObj [("data", JObj
    [("matchedUser", JObj
        [("username", JStr "alice");
         ("profile", JObj
            [("realName", JStr "Alice A.");
             ("userAvatar", JStr "https://example.org/a.png");
             ("ranking", JInt 1234);
             ("websites", JArr [JStr "https://example.org"]);
             ("skillTags", JArr [])]);
         ("badges", JArr [JObj [("id", JStr "1"); ("name", JStr "Gold")]]);
         ("submitStatsGlobal", JObj
            [("acSubmissionNum", JArr
                [JObj [("difficulty", JStr "All"); ("count", JInt 30)];
                 JObj [("difficulty", JStr "Easy"); ("count", JInt 20)];
                 JObj [("count", JInt 25)]]);
             ("totalSubmissionNum", JArr
                [JObj [("difficulty", JStr "All"); ("count", JInt 40);
                       ("submissions", JInt 90)];
                 JObj [("difficulty", JStr "Easy"); ("count", JInt 20);
                       ("submissions", JInt 35)]])])]);
     ("userContestRanking", JObj [("rating", JInt 1500)])])].

(** An item [by_diff] can file: an object whose [difficulty], when present,
    is hashable (not an array and not an object). *)
Definition keyed (item : json) : bool :=
  match item with
  | JObj o =>
      match dict_get String.eqb o "difficulty" with
      | Some (JArr _) | Some (JObj _) => false
      | _ => true
      end
  | _ => false
  end.

(** What [by_diff] raises on an item it cannot file. *)
Definition filing_error (item : json) : exn :=
  match item with
  | JObj _ => TypeError
  | _ => AttributeError
  end.

(** The array at a place, empty when there is none. *)
Definition list_at (v : option json) : list json :=
  match v with
  | Some (JArr l) => l
  | _ => []
  end.

(** The member [k] of the last item of [items] filed under the difficulty
    [diff]; 0 when there is no such item or it has no such member. *)
Definition member_of_last (items : list json) (diff k : string) : json :=
  match last_with_key items (KStr diff) with
  | Some (JObj o) => get_or o k (JInt 0)
  | _ => JInt 0
  end.

Definition absent_or_object (v : option json) : Prop :=
  v = None \/ exists o, v = Some (JObj o).

Definition absent_or_array (v : option json) : Prop :=
  v = None \/ exists l, v = Some (JArr l).

(** The probe obtained a handle: the import gave a non-null [db] and
    reading [db.name] did not raise. *)
Definition handle_ready (env : Probe.environment) : option Probe.database :=
  match Probe.import_db env with
  | inr (Some db) =>
      match Probe.db_name db with
      | Probe.AttrRaises _ => None
      | _ => Some db
      end
  | _ => None
  end.

(** The floats [100.0] and [0.0]. *)
Definition hundred : spec_float := S754_finite false 7036874417766400 (-46).
Definition zero : spec_float := S754_zero false.

(** [s * n]: [n] copies of [s]. *)
Fixpoint repeat_str (n : nat) (s : string) : string :=
  match n with
  | O => ""
  | S n' => s ++ repeat_str n' s
  end.
(** * Properties *)

(** ** The error monad *)

Lemma bind_ok {A B : Type} (c : res A) (k : A -> res B) (b : B) :
  bind c k = Ok b -> exists a, c = Ok a /\ k a = Ok b.
Proof.
  destruct c as [a|e]; simpl; intros H; [eauto | discriminate].
Qed.

Lemma py_get_ok (v : json) (k : string) (d x : json) :
  py_get v k d = Ok x -> exists o, v = JObj o /\ x = get_or o k d.
Proof.
  destruct v; simpl; intros H; try discriminate.
  injection H as <-. eauto.
Qed.

(** ** What a successful fetch went through *)

Lemma shape_ok (data matched res : json) :
  shape data matched = Ok res ->
  exists o dd m p sg ac_map total_map stats,
    data = JObj o /\ get_or o "data" (JObj []) = JObj dd /\
    matched = JObj m /\ get_or m "profile" (JObj []) = JObj p /\
    get_or m "submitStatsGlobal" (JObj []) = JObj sg /\
    by_diff (get_or sg "acSubmissionNum" (JArr [])) = Ok ac_map /\
    by_diff (get_or sg "totalSubmissionNum" (JArr [])) = Ok total_map /\
    build_stats ac_map total_map difficulties [] = Ok stats /\
    res = result_dict dd m p stats.
Proof.
  unfold shape. intros H.
  apply bind_ok in H as (d & Hd & H).
  apply py_get_ok in Hd as (o & -> & Hd).
  apply bind_ok in H as (contest & Hc & H).
  apply py_get_ok in Hc as (dd & Hdd & ->).
  apply bind_ok in H as (profile & Hp & H).
  apply py_get_ok in Hp as (m & -> & Hp).
  apply bind_ok in H as (sg0 & Hsg & H).
  simpl in Hsg. injection Hsg as <-.
  apply bind_ok in H as (ac_list & Hac & H).
  apply py_get_ok in Hac as (sg & Hsg & ->).
  apply bind_ok in H as (sg0 & Hsg' & H).
  simpl in Hsg'. injection Hsg' as <-.
  apply bind_ok in H as (total_list & Htl & H).
  rewrite Hsg in Htl. simpl in Htl. injection Htl as <-.
  apply bind_ok in H as (ac_map & Hacm & H).
  apply bind_ok in H as (total_map & Htm & H).
  apply bind_ok in H as (stats & Hst & H).
  apply bind_ok in H as (username & Hu & H).
  simpl in Hu. injection Hu as <-.
  apply bind_ok in H as (realName & Hr & H).
  apply py_get_ok in Hr as (p & Hpp & ->).
  subst profile d.
  exists o, dd, m, p, sg, ac_map, total_map, stats.
  repeat (split; [solve [auto]|]).
  rewrite Hpp in H. simpl in H.
  destruct (truthy (get_or p "realName" JNull)) eqn:Ht; simpl in H;
    injection H as <-; unfold result_dict; rewrite Ht; reflexivity.
Qed.

Section FetchFacts.

Variable requests_post : string -> json -> Z -> string + response.

Lemma fetch_ok (username : string) (res : json) :
  fetch_leetcode_user requests_post username = Ok res ->
  exists r data d matched,
    requests_post LEETCODE_GRAPHQL_URL (payload username) 12 = inr r /\
    status_code r = 200 /\
    r_json r = Some data /\
    has_errors data = Ok false /\
    py_get data "data" (JObj []) = Ok d /\
    py_get d "matchedUser" JNull = Ok matched /\
    truthy matched = true /\
    shape data matched = Ok res.
Proof.
  unfold fetch_leetcode_user. intros H.
  destruct (requests_post _ _ _) as [e|r] eqn:Hp; simpl in H;
    [discriminate|].
  destruct (status_code r =? 200) eqn:Hs; simpl in H; [|discriminate].
  apply Z.eqb_eq in Hs.
  destruct (r_json r) as [data|] eqn:Hj; simpl in H; [|discriminate].
  apply bind_ok in H as (errs & He & H).
  destruct errs; [discriminate|].
  apply bind_ok in H as (d & Hd & H).
  apply bind_ok in H as (matched & Hm & H).
  destruct (truthy matched) eqn:Ht; simpl in H; [|discriminate].
  exists r, data, d, matched. repeat split; assumption.
Qed.

(** A successful fetch saw a reply with status 200 whose body is an object
    with a [data] object holding a [matchedUser] object, and returns the
    [dict] built from them. *)
Lemma fetch_ok_shape (username : string) (res : json) :
  fetch_leetcode_user requests_post username = Ok res ->
  exists r o dd m p sg ac_map total_map stats,
    requests_post LEETCODE_GRAPHQL_URL (payload username) 12 = inr r /\
    status_code r = 200 /\
    r_json r = Some (JObj o) /\
    dict_get String.eqb o "data" = Some (JObj dd) /\
    dict_get String.eqb dd "matchedUser" = Some (JObj m) /\
    get_or m "profile" (JObj []) = JObj p /\
    get_or m "submitStatsGlobal" (JObj []) = JObj sg /\
    by_diff (get_or sg "acSubmissionNum" (JArr [])) = Ok ac_map /\
    by_diff (get_or sg "totalSubmissionNum" (JArr [])) = Ok total_map /\
    build_stats ac_map total_map difficulties [] = Ok stats /\
    res = result_dict dd m p stats.
Proof.
  intros H.
  apply fetch_ok in H
    as (r & data & d & matched & Hp & Hs & Hj & _ & Hd & Hm & Ht & H).
  apply shape_ok in H
    as (o & dd & m & p & sg & am & tm & stats
        & -> & Hdd & -> & Hpr & Hsg & Ham & Htm & Hst & ->).
  simpl in Hd. injection Hd as <-. rewrite Hdd in Hm.
  simpl in Hm. injection Hm as Hm.
  exists r, o, dd, m, p, sg, am, tm, stats.
  repeat (split; [solve [auto]|]).
  split.
  - unfold get_or in Hdd.
    destruct (dict_get String.eqb o "data") as [x|] eqn:Ho;
      [now subst|].
    injection Hdd as <-. simpl in Hm. discriminate.
  - split.
    + unfold get_or in Hm.
      destruct (dict_get String.eqb dd "matchedUser") as [x|];
        [now subst|discriminate].
    + repeat split; assumption.
Qed.

End FetchFacts.

(** ** The statistics *)

Lemma bucket_ok (ac_map total_map : list (hkey * json)) (diff : string)
    (b : json) :
  bucket ac_map total_map diff = Ok b ->
  exists ac tot submissions f,
    py_get (map_get ac_map diff) "count" (JInt 0) = Ok ac /\
    py_get (map_get total_map diff) "count" (JInt 0) = Ok tot /\
    py_get (map_get total_map diff) "submissions" (JInt 0) = Ok submissions /\
    acceptance_rate ac tot = Ok f /\
    b = JObj [("solved", ac);
              ("total", tot);
              ("acceptanceRate", JFloat f);
              ("submissions", submissions)].
Proof.
  unfold bucket. intros H.
  apply bind_ok in H as (ac & Hac & H).
  apply bind_ok in H as (tot & Htot & H).
  apply bind_ok in H as (sub & Hsub & H).
  apply bind_ok in H as (f & Hf & H).
  injection H as <-.
  exists ac, tot, sub, f. repeat split; assumption.
Qed.

Lemma build_stats_ok (ac_map total_map : list (hkey * json))
    (stats : list (string * json)) :
  build_stats ac_map total_map difficulties [] = Ok stats ->
  exists all easy medium hard,
    bucket ac_map total_map "All" = Ok all /\
    bucket ac_map total_map "Easy" = Ok easy /\
    bucket ac_map total_map "Medium" = Ok medium /\
    bucket ac_map total_map "Hard" = Ok hard /\
    stats = [("all", all); ("easy", easy); ("medium", medium);
             ("hard", hard)].
Proof.
  unfold difficulties. cbn [build_stats]. intros H.
  apply bind_ok in H as (all & Hall & H).
  apply bind_ok in H as (easy & Heasy & H).
  apply bind_ok in H as (medium & Hmedium & H).
  apply bind_ok in H as (hard & Hhard & H).
  injection H as <-.
  exists all, easy, medium, hard. repeat split; assumption.
Qed.

(** The buckets of a result, with the difficulty each one was computed from. *)
Lemma stats_lookup (all easy medium hard : json) (k : string) (b : json) :
  dict_get String.eqb
    [("all", all); ("easy", easy); ("medium", medium); ("hard", hard)] k
  = Some b ->
  (k = "all" /\ b = all) \/ (k = "easy" /\ b = easy) \/
  (k = "medium" /\ b = medium) \/ (k = "hard" /\ b = hard).
Proof.
  cbn [dict_get]. intros H.
  destruct (String.eqb_spec "all" k) as [<-|_];
    [left; split; congruence|].
  destruct (String.eqb_spec "easy" k) as [<-|_];
    [right; left; split; congruence|].
  destruct (String.eqb_spec "medium" k) as [<-|_];
    [right; right; left; split; congruence|].
  destruct (String.eqb_spec "hard" k) as [<-|_];
    [right; right; right; split; congruence|discriminate].
Qed.

Example sample_stats_easy :
  match fetch_leetcode_user (reply 200 (Some sample_body)) "alice" with
  | Ok res => path res ["stats"; "easy"]
  | Raise _ => None
  end
  = Some (JObj [("solved", JInt 10);
                ("total", JInt 20);
                ("acceptanceRate",
                 JFloat (S754_finite false 7036874417766400 (-47)));
                ("submissions", JInt 25)]).
Proof. vm_compute. reflexivity. Qed.

(** ** Classification of the upstream failures *)

Section Classification.

Variable requests_post : string -> json -> Z -> string + response.
Variable username : string.
Variable r : response.
Hypothesis Hpost :
  requests_post LEETCODE_GRAPHQL_URL (payload username) 12 = inr r.

(** Any status but 200 is a bad gateway, whatever the body. *)
Lemma status_not_200 :
  status_code r <> 200 ->
  fetch_leetcode_user requests_post username
  = Raise (HTTPException 502
             ("LeetCode API error: HTTP " ++ str_of_int (status_code r))).
Proof.
  intros Hs. unfold fetch_leetcode_user. rewrite Hpost. simpl.
  apply Z.eqb_neq in Hs. rewrite Hs. reflexivity.
Qed.

(** With status 200 the body is parsed, and the fetch goes on with it. *)
Lemma status_200 (data : json) :
  status_code r = 200 ->
  r_json r = Some data ->
  fetch_leetcode_user requests_post username
  = (errors <- has_errors data ;;
     if errors then
       Raise (HTTPException 404 "User not found or LeetCode error")
     else
       d <- py_get data "data" (JObj []) ;;
       matched <- py_get d "matchedUser" JNull ;;
       if negb (truthy matched) then
         Raise (HTTPException 404 "User not found")
       else shape data matched).
Proof.
  intros Hs Hj. unfold fetch_leetcode_user. rewrite Hpost. simpl.
  rewrite Hs, Hj. reflexivity.
Qed.

(** C1 (amended): when the upstream replies with status 200 and a body
    that is a JSON object whose [errors] member is a non-empty array,
    [fetch_leetcode_user] fails with the 404 [HTTPException]
    (ProfileNotFound). *)
Theorem errors_array_is_not_found (o : list (string * json))
    (e : json) (errs : list json) :
  status_code r = 200 ->
  r_json r = Some (JObj o) ->
  dict_get String.eqb o "errors" = Some (JArr (e :: errs)) ->
  fetch_leetcode_user requests_post username
  = Raise (HTTPException 404 "User not found or LeetCode error").
Proof.
  intros Hs Hj He. rewrite (status_200 _ Hs Hj).
  unfold has_errors. simpl. rewrite He. reflexivity.
Qed.

(** C2 (amended): when the body of the reply is not JSON, a status other
    than 200 gives the 502 [HTTPException] (GatewayUnavailable) and the body
    is never parsed; with status 200 the decoding error of [r.json()] is
    not caught and leaves [fetch_leetcode_user] as it is. *)
Theorem non_json_body :
  r_json r = None ->
  fetch_leetcode_user requests_post username
  = if status_code r =? 200 then Raise JSONDecodeError
    else Raise (HTTPException 502
                  ("LeetCode API error: HTTP "
                   ++ str_of_int (status_code r))).
Proof.
  intros Hj. unfold fetch_leetcode_user. rewrite Hpost. simpl.
  destruct (status_code r =? 200); simpl; [|reflexivity].
  rewrite Hj. reflexivity.
Qed.

(** C5 (amended): when the upstream replies with status 200 and a body
    that is an object without errors whose [data] member is absent or an
    object, and [matchedUser] is absent from it or null,
    [fetch_leetcode_user] fails with the 404 [HTTPException]
    (ProfileNotFound). *)
Theorem missing_matched_user (data : json) (o : list (string * json)) :
  status_code r = 200 ->
  r_json r = Some data ->
  data = JObj o ->
  (forall e, field data "errors" = Some e -> truthy e = false) ->
  (field data "data" = None \/
   exists dd, field data "data" = Some (JObj dd)) ->
  (path data ["data"; "matchedUser"] = None \/
   path data ["data"; "matchedUser"] = Some JNull) ->
  fetch_leetcode_user requests_post username
  = Raise (HTTPException 404 "User not found").
Proof.
  intros Hs Hj -> He Hd Hm. rewrite (status_200 _ Hs Hj).
  unfold has_errors. simpl in *.
  destruct (dict_get String.eqb o "errors") as [e|] eqn:Hee; simpl.
  - rewrite (He e eq_refl). simpl.
    unfold get_or.
    destruct Hd as [Hd|(dd & Hd)]; rewrite Hd in *; simpl; [reflexivity|].
    unfold get_or. simpl in Hm.
    destruct (dict_get String.eqb dd "matchedUser") as [m|]; simpl;
      [|reflexivity].
    destruct Hm as [Hm|Hm]; [discriminate|].
    injection Hm as ->. reflexivity.
  - unfold get_or.
    destruct Hd as [Hd|(dd & Hd)]; rewrite Hd in *; simpl; [reflexivity|].
    unfold get_or. simpl in Hm.
    destruct (dict_get String.eqb dd "matchedUser") as [m|]; simpl;
      [|reflexivity].
    destruct Hm as [Hm|Hm]; [discriminate|].
    injection Hm as ->. reflexivity.
Qed.

End Classification.

(** A [data] member that is null is none of the cases above: [None] has no
    [get]. *)
Example data_null_is_unclassified :
  fetch_leetcode_user (reply 200 (Some (JObj [("data", JNull)]))) "alice"
  = Raise AttributeError.
Proof. reflexivity. Qed.

(** C5, counterexample: under status 200, a body without errors whose
    [data] member is null, and a body that is an empty array, have no
    [matchedUser], yet the fetch ends in an [AttributeError], not in the 404
    [HTTPException]. *)
Lemma missing_matched_user_data_null :
  let body := JObj [("data", JNull)] in
  (field body "errors" = None /\
   path body ["data"; "matchedUser"] = None /\
   fetch_leetcode_user (reply 200 (Some body)) "alice"
   = Raise AttributeError /\
   forall detail,
     fetch_leetcode_user (reply 200 (Some body)) "alice"
     <> Raise (HTTPException 404 detail)) /\
  (field (JArr []) "errors" = None /\
   path (JArr []) ["data"; "matchedUser"] = None /\
   fetch_leetcode_user (reply 200 (Some (JArr []))) "alice"
   = Raise AttributeError /\
   forall detail,
     fetch_leetcode_user (reply 200 (Some (JArr []))) "alice"
     <> Raise (HTTPException 404 detail)).
Proof.
  cbv zeta. repeat split; try reflexivity; intros detail; discriminate.
Qed.

(** C1, counterexample: a body with a non-empty [errors] array under status
    500 is a bad gateway, not a missing profile. *)
Lemma errors_array_status_500 :
  let body :=
    JObj [("errors", JArr [JObj [("message", JStr "That user does not exist.")]])]
  in
  field body "errors"
  = Some (JArr [JObj [("message", JStr "That user does not exist.")]]) /\
  fetch_leetcode_user (reply 500 (Some body)) "nonexistent_user_xyz"
  = Raise (HTTPException 502 "LeetCode API error: HTTP 500") /\
  fetch_leetcode_user (reply 500 (Some body)) "nonexistent_user_xyz"
  <> Raise (HTTPException 404 "User not found or LeetCode error").
Proof.
  cbv zeta. split; [reflexivity|]. split; [reflexivity|]. discriminate.
Qed.

Lemma errors_array_is_not_found_witness :
  fetch_leetcode_user
    (reply 200
       (Some (JObj [("errors",
                     JArr [JObj [("message", JStr "That user does not exist.")]])])))
    "nonexistent_user_xyz"
  = Raise (HTTPException 404 "User not found or LeetCode error").
Proof.
  eapply errors_array_is_not_found; reflexivity.
Defined.

(** C2, counterexample: under status 200 a body that is not JSON ends in the
    decoding error, not in the 502 [HTTPException]. *)
Lemma non_json_body_status_200 :
  fetch_leetcode_user (reply 200 None) "alice" = Raise JSONDecodeError /\
  forall detail,
    fetch_leetcode_user (reply 200 None) "alice"
    <> Raise (HTTPException 502 detail).
Proof.
  split; [reflexivity|]. intros detail. discriminate.
Qed.

Lemma non_json_body_witness :
  fetch_leetcode_user (reply 200 None) "alice" = Raise JSONDecodeError /\
  fetch_leetcode_user (reply 503 None) "alice"
  = Raise (HTTPException 502 "LeetCode API error: HTTP 503").
Proof.
  split.
  - exact (non_json_body (reply 200 None) "alice"
             {| status_code := 200; r_json := None |} eq_refl eq_refl).
  - exact (non_json_body (reply 503 None) "alice"
             {| status_code := 503; r_json := None |} eq_refl eq_refl).
Defined.

Lemma missing_matched_user_witness :
  fetch_leetcode_user
    (reply 200 (Some (JObj [("data", JObj [("matchedUser", JNull)])])))
    "alice"
  = Raise (HTTPException 404 "User not found").
Proof.
  eapply missing_matched_user; try reflexivity.
  - intros e H. discriminate.
  - right. eexists. reflexivity.
  - right. reflexivity.
Defined.

(** ** The normalised profile *)

Lemma path_matched (o dd m : list (string * json)) (ks : list string) :
  dict_get String.eqb o "data" = Some (JObj dd) ->
  dict_get String.eqb dd "matchedUser" = Some (JObj m) ->
  path (JObj o) ("data" :: "matchedUser" :: ks) = path (JObj m) ks.
Proof.
  intros Hd Hm. cbn [path field]. rewrite Hd. cbn [path field].
  rewrite Hm. reflexivity.
Qed.

(** A member absent from the profile, or a profile absent altogether, reads
    as [None]. *)
Lemma profile_member_absent (m p : list (string * json)) (k : string) :
  get_or m "profile" (JObj []) = JObj p ->
  path (JObj m) ["profile"; k] = None ->
  get_or p k JNull = JNull.
Proof.
  unfold get_or. cbn [path field]. intros Hp Hk.
  destruct (dict_get String.eqb m "profile") as [x|].
  - subst x. cbn [path field] in Hk.
    destruct (dict_get String.eqb p k); [discriminate|reflexivity].
  - injection Hp as <-. reflexivity.
Qed.

Lemma get_or_null (m : list (string * json)) (k : string) :
  get_or m k JNull = or_null (path (JObj m) [k]).
Proof.
  unfold get_or. cbn [path field].
  destruct (dict_get String.eqb m k); reflexivity.
Qed.

Section Normalised.

Variable requests_post : string -> json -> Z -> string + response.
Variable username : string.
Variable r : response.
Variable data res : json.
Hypothesis Hpost :
  requests_post LEETCODE_GRAPHQL_URL (payload username) 12 = inr r.
Hypothesis Hjson : r_json r = Some data.
Hypothesis Hfetch : fetch_leetcode_user requests_post username = Ok res.

(** The reply behind a successful fetch, with its parts named. *)
Lemma fetched :
  exists o dd m p stats,
    data = JObj o /\
    dict_get String.eqb o "data" = Some (JObj dd) /\
    dict_get String.eqb dd "matchedUser" = Some (JObj m) /\
    get_or m "profile" (JObj []) = JObj p /\
    res = result_dict dd m p stats.
Proof.
  destruct (fetch_ok_shape _ _ _ Hfetch)
    as (r' & o & dd & m & p & sg & am & tm & stats
        & Hp & _ & Hj & Hd & Hm & Hpr & _ & _ & _ & _ & Hres).
  rewrite Hpost in Hp. injection Hp as <-.
  rewrite Hjson in Hj. injection Hj as ->.
  exists o, dd, m, p, stats. repeat split; assumption.
Qed.

(** C7: in a successful fetch whose upstream profile has no [realName]
    member, the [name] of the result is the [username] of the matched
    user. *)
Theorem name_falls_back_to_username :
  path data ["data"; "matchedUser"; "profile"; "realName"] = None ->
  field res "name"
  = Some (or_null (path data ["data"; "matchedUser"; "username"])).
Proof.
  destruct fetched as (o & dd & m & p & stats & -> & Hd & Hm & Hp & ->).
  rewrite !(path_matched _ _ _ _ Hd Hm). intros Hr.
  apply (profile_member_absent _ _ _ Hp) in Hr.
  cbn [field result_dict dict_get String.eqb Ascii.eqb Bool.eqb].
  rewrite Hr. cbn [truthy]. rewrite get_or_null. reflexivity.
Qed.

(** C8: in a successful fetch, [websites] and [skills] are the empty list
    when the upstream profile has no [websites] and no [skillTags] member,
    and [badges] is the empty list when the matched user has no [badges]
    member; the three members are present in the result. *)
Theorem absent_lists_default_to_empty :
  (path data ["data"; "matchedUser"; "profile"; "websites"] = None ->
   field res "websites" = Some (JArr [])) /\
  (path data ["data"; "matchedUser"; "profile"; "skillTags"] = None ->
   field res "skills" = Some (JArr [])) /\
  (path data ["data"; "matchedUser"; "badges"] = None ->
   field res "badges" = Some (JArr [])).
Proof.
  destruct fetched as (o & dd & m & p & stats & -> & Hd & Hm & Hp & ->).
  rewrite !(path_matched _ _ _ _ Hd Hm).
  cbn [field result_dict dict_get String.eqb Ascii.eqb Bool.eqb].
  repeat split; intros H.
  - apply (profile_member_absent _ _ _ Hp) in H. rewrite H. reflexivity.
  - apply (profile_member_absent _ _ _ Hp) in H. rewrite H. reflexivity.
  - rewrite get_or_null, H. reflexivity.
Qed.

End Normalised.

Lemma name_falls_back_to_username_witness :
  exists res,
    fetch_leetcode_user (reply 200 (Some sample_body)) "alice" = Ok res /\
    field res "name" = Some (JStr "alice").
Proof.
  eexists. split; [vm_compute; reflexivity|].
  eapply (name_falls_back_to_username
            (reply 200 (Some sample_body)) "alice"
            {| status_code := 200; r_json := Some sample_body |}
            sample_body);
    vm_compute; reflexivity.
Defined.

Lemma absent_lists_default_to_empty_witness :
  exists res,
    fetch_leetcode_user (reply 200 (Some sample_body)) "alice" = Ok res /\
    field res "websites" = Some (JArr []) /\
    field res "skills" = Some (JArr []) /\
    field res "badges" = Some (JArr []).
Proof.
  eexists. split; [vm_compute; reflexivity|].
  pose proof (absent_lists_default_to_empty
                (reply 200 (Some sample_body)) "alice"
                {| status_code := 200; r_json := Some sample_body |}
                sample_body _ eq_refl eq_refl eq_refl) as (Hw & Hs & Hb).
  split; [apply Hw; reflexivity|].
  split; [apply Hs; reflexivity|apply Hb; reflexivity].
Defined.

(** C10: the [stats] of a successful fetch hold the four keys [all], [easy],
    [medium], [hard], in that order and no other, each with a record of the
    four members [solved], [total], [acceptanceRate], [submissions], whatever
    the difficulty names in the upstream lists. *)
Theorem stats_has_four_buckets
    (requests_post : string -> json -> Z -> string + response)
    (username : string) (res : json) :
  fetch_leetcode_user requests_post username = Ok res ->
  exists all easy medium hard,
    field res "stats"
    = Some (JObj [("all", all); ("easy", easy); ("medium", medium);
                  ("hard", hard)]) /\
    is_bucket all /\ is_bucket easy /\ is_bucket medium /\ is_bucket hard.
Proof.
  intros H.
  apply fetch_ok_shape in H
    as (r & o & dd & m & p & sg & am & tm & stats
        & _ & _ & _ & _ & _ & _ & _ & _ & _ & Hst & ->).
  apply build_stats_ok in Hst
    as (all & easy & medium & hard & Ha & He & Hm & Hh & ->).
  exists all, easy, medium, hard.
  split; [reflexivity|].
  repeat split;
    match goal with
    | Hb : bucket _ _ _ = Ok ?b |- is_bucket ?b =>
        apply bucket_ok in Hb as (ac & tot & sub & f & _ & _ & _ & _ & ->);
        exists ac, tot, f, sub; reflexivity
    end.
Qed.

Lemma stats_has_four_buckets_witness :
  exists res all easy medium hard,
    fetch_leetcode_user (reply 200 (Some sample_body)) "alice" = Ok res /\
    field res "stats"
    = Some (JObj [("all", all); ("easy", easy); ("medium", medium);
                  ("hard", hard)]) /\
    is_bucket all /\ is_bucket easy /\ is_bucket medium /\ is_bucket hard.
Proof.
  destruct (fetch_leetcode_user (reply 200 (Some sample_body)) "alice")
    as [res|e] eqn:Hf; [|vm_compute in Hf; discriminate].
  destruct (stats_has_four_buckets _ _ _ Hf)
    as (all & easy & medium & hard & H).
  exists res, all, easy, medium, hard. split; [reflexivity|exact H].
Defined.

(** ** The cut of a message *)

Lemma take_chars_prefix (n : nat) (s : string) :
  exists rest, s = take_chars n s ++ rest.
Proof.
  revert n. induction s as [|c s IH]; intros n; cbn [take_chars].
  - exists "". reflexivity.
  - destruct (is_continuation c).
    + destruct (IH n) as (rest & H). exists rest. cbn. congruence.
    + destruct n as [|n]; [exists (String c s); reflexivity|].
      destruct (IH n) as (rest & H). exists rest. cbn. congruence.
Qed.

Lemma take_chars_count (n : nat) (s : string) :
  count_chars (take_chars n s) = Nat.min n (count_chars s).
Proof.
  revert n. induction s as [|c s IH]; intros n;
    cbn [take_chars count_chars].
  - rewrite Nat.min_0_r. reflexivity.
  - destruct (is_continuation c) eqn:Hc.
    + cbn [count_chars]. rewrite Hc. apply IH.
    + destruct n as [|n]; [reflexivity|].
      cbn [count_chars]. rewrite Hc, IH. reflexivity.
Qed.

Lemma take_chars_all (n : nat) (s : string) :
  (count_chars s <= n)%nat -> take_chars n s = s.
Proof.
  revert n. induction s as [|c s IH]; intros n;
    cbn [take_chars count_chars]; [reflexivity|].
  destruct (is_continuation c).
  - intros H. rewrite (IH n H). reflexivity.
  - destruct n as [|n]; [lia|]. intros H. rewrite (IH n); [reflexivity|lia].
Qed.

(** Two characters of "héllo": the cut keeps both bytes of the second. *)
Example take_chars_accent : take_chars 2 "héllo" = "hé".
Proof. reflexivity. Qed.

(** A message of sixty accented letters is cut to fifty of them, not to
    fifty bytes. *)
Example probe_cuts_characters :
  match
    Probe.test_database
      {| Probe.import_db := inl (Probe.Exc (repeat_str 60 "é"));
         Probe.getenv := fun _ => None |}
  with
  | inr response => dict_get String.eqb response "database"
  | inl _ => None
  end
  = Some (JStr ("❌ Error: " ++ repeat_str 50 "é")).
Proof. vm_compute. reflexivity. Qed.

(** ** The probe *)

(** C9: [test_database] returns in every state of the database and of the
    environment, never raising: the response has the six fixed keys,
    [database] holds the status string of the case at hand, the two
    variables are reported as set or not, and at most ten collections are
    listed. *)
Theorem test_database_never_raises (env : Probe.environment) :
  exists response collections,
    Probe.test_database env = inr response /\
    dict_keys response
    = ["backend"; "database"; "database_url"; "database_name";
       "connection_status"; "collections"] /\
    dict_get String.eqb response "backend" = Some (JStr "✅ Running") /\
    dict_get String.eqb response "database"
    = Some (JStr (expected_status env)) /\
    dict_get String.eqb response "database_url"
    = Some (set_or_not (Probe.os_getenv env "DATABASE_URL")) /\
    dict_get String.eqb response "database_name"
    = Some (set_or_not (Probe.os_getenv env "DATABASE_NAME")) /\
    dict_get String.eqb response "collections" = Some (JArr collections) /\
    (List.length collections <= 10)%nat.
Proof.
  destruct env as [imp env]. unfold expected_status, Probe.os_getenv.
  cbn [Probe.import_db Probe.getenv].
  destruct imp as [[msg|msg]|[db|]].
  - eexists; exists []. repeat split; simpl; lia.
  - eexists; exists []. repeat split; simpl; lia.
  - destruct db as [name lcn]. cbn [Probe.db_name Probe.list_collection_names].
    destruct name as [|v|[msg|msg]].
    + destruct lcn as [e|cols].
      * eexists; exists []. repeat split; simpl; lia.
      * eexists; exists (firstn 10 cols).
        repeat split. apply firstn_le_length.
    + destruct lcn as [e|cols].
      * eexists; exists []. repeat split; simpl; lia.
      * eexists; exists (firstn 10 cols).
        repeat split. apply firstn_le_length.
    + eexists; exists []. repeat split; simpl; lia.
    + eexists; exists []. repeat split; simpl; lia.
  - eexists; exists []. repeat split; simpl; lia.
Qed.

(** ** Dictionaries and [by_diff] *)

Section DictFacts.
Context {K V : Type} (eqb : K -> K -> bool).
Hypothesis eqb_eq : forall a b, eqb a b = true <-> a = b.

Lemma dict_get_set (d : list (K * V)) (k k' : K) (v : V) :
  dict_get eqb (dict_set eqb d k v) k'
  = if eqb k k' then Some v else dict_get eqb d k'.
Proof.
  induction d as [|[k0 v0] d IH]; simpl.
  - reflexivity.
  - destruct (eqb k0 k) eqn:E0; simpl.
    + apply eqb_eq in E0. subst k0.
      destruct (eqb k k'); reflexivity.
    + destruct (eqb k0 k') eqn:E1; [|exact IH].
      apply eqb_eq in E1. subst k0.
      destruct (eqb k k') eqn:E2; [|reflexivity].
      apply eqb_eq in E2. subst k'.
      rewrite (proj2 (eqb_eq k k) eq_refl) in E0. discriminate.
Qed.
End DictFacts.

Lemma hkey_eqb_eq (a b : hkey) : hkey_eqb a b = true <-> a = b.
Proof.
  destruct a, b; simpl; split; intros H;
    try discriminate; try reflexivity.
  - apply String.eqb_eq in H. congruence.
  - injection H as ->. apply String.eqb_refl.
  - apply Z.eqb_eq in H. congruence.
  - injection H as ->. apply Z.eqb_refl.
  - apply andb_true_iff in H as [H He]. apply andb_true_iff in H as [Hs Hm].
    apply Bool.eqb_prop in Hs. apply Pos.eqb_eq in Hm.
    apply Z.eqb_eq in He. congruence.
  - injection H as -> -> ->.
    rewrite Bool.eqb_reflx, Pos.eqb_refl, Z.eqb_refl. reflexivity.
  - apply Bool.eqb_prop in H. congruence.
  - injection H as ->. apply Bool.eqb_reflx.
Qed.

Lemma find_snoc {A : Type} (f : A -> bool) (l : list A) (x : A) :
  find f (l ++ [x])
  = match find f l with
    | Some y => Some y
    | None => if f x then Some x else None
    end.
Proof.
  induction l as [|a l IH]; simpl.
  - reflexivity.
  - destruct (f a); [reflexivity|exact IH].
Qed.

Lemma by_diff_items_get (items : list json) :
  forall (acc m : list (hkey * json)) (k : hkey),
    by_diff_items items acc = Ok m ->
    dict_get hkey_eqb m k
    = match last_with_key items k with
      | Some item => Some item
      | None => dict_get hkey_eqb acc k
      end.
Proof.
  unfold last_with_key.
  induction items as [|item rest IH]; intros acc m k H.
  - simpl in H. injection H as <-. reflexivity.
  - cbn [by_diff_items] in H.
    apply bind_ok in H as (j & Hj & H).
    apply bind_ok in H as (h & Hh & H).
    rewrite (IH _ _ k H). simpl rev. rewrite find_snoc.
    destruct (find (has_key k) (rev rest)); [reflexivity|].
    rewrite (dict_get_set hkey_eqb hkey_eqb_eq).
    unfold has_key, item_key. rewrite Hj. simpl. rewrite Hh.
    destruct (hkey_eqb h k); reflexivity.
Qed.

(** C6: the mapping [by_diff] builds from a list holds, under every key, the
    last item of the list filed under that key (so for duplicate
    difficulties the last occurrence wins), and the list determines the
    mapping. *)
Theorem by_diff_last_wins (items : list json) (m : list (hkey * json)) :
  by_diff (JArr items) = Ok m ->
  (forall k, dict_get hkey_eqb m k = last_with_key items k) /\
  (forall m', by_diff (JArr items) = Ok m' -> m' = m).
Proof.
  intros H. split.
  - intros k. unfold by_diff in H. simpl in H.
    rewrite (by_diff_items_get _ _ _ k H).
    destruct (last_with_key items k); reflexivity.
  - intros m' H'. congruence.
Qed.

Lemma by_diff_last_wins_witness :
  let first := JObj [("difficulty", JStr "Easy"); ("count", JInt 7)] in
  let other := JObj [("difficulty", JStr "Extreme"); ("count", JInt 3)] in
  let last := JObj [("difficulty", JStr "Easy"); ("count", JInt 10)] in
  exists m,
    by_diff (JArr [first; other; last]) = Ok m /\
    dict_get hkey_eqb m (KStr "Easy") = Some last.
Proof.
  intros first other last.
  destruct (by_diff (JArr [first; other; last])) as [m|e] eqn:Hm;
    [|vm_compute in Hm; discriminate].
  exists m. split; [reflexivity|].
  destruct (by_diff_last_wins _ _ Hm) as [Hget _].
  rewrite Hget. reflexivity.
Defined.

(** ** The float model on examples *)

(** [1 / 3], [1 / 3 * 100] and [round(1 / 3 * 100, 2)] are
    [0.3333333333333333], [33.33333333333333] and [33.33]. *)
Example third_percent :
  Float.int_truediv 1 3 = Ok (S754_finite false 6004799503160661 (-54)) /\
  float_mul_int (S754_finite false 6004799503160661 (-54)) 100
  = Ok (S754_finite false 4691249611844266 (-47)) /\
  Float.round2 (S754_finite false 4691249611844266 (-47))
  = Ok (S754_finite false 4690780486883082 (-47)).
Proof. vm_compute. repeat split. Qed.

(** [round(0.125, 2)] is [0.12] (a tie, to the even digit) and
    [round(2.675, 2)] is [2.67] (the float is below the decimal). *)
Example round2_ties :
  Float.round2 (S754_finite false 4503599627370496 (-55))
  = Ok (S754_finite false 8646911284551352 (-56)) /\
  Float.round2 (S754_finite false 6023564501608038 (-51))
  = Ok (S754_finite false 6012305502539612 (-51)).
Proof. vm_compute. repeat split. Qed.

(** [0 / -5] is [-0.0], [1 / 0] raises, and [10**400 / 1] is too large. *)
Example int_truediv_edges :
  Float.int_truediv 0 (-5) = Ok (S754_zero true) /\
  Float.int_truediv 1 0 = Raise ZeroDivisionError /\
  Float.int_truediv (10 ^ 400) 1 = Raise OverflowError.
Proof. vm_compute. repeat split. Qed.

(** On the samples, [Float.mul] and [Float.div] are the multiplication and
    the division of the standard library's binary64. *)
Example mul_div_agree_with_SpecFloat :
  forallb
    (fun p =>
       sf_eqb (Float.mul (fst p) (snd p)) (SFmul 53 1024 (fst p) (snd p))
       && sf_eqb (Float.div (fst p) (snd p)) (SFdiv 53 1024 (fst p) (snd p)))
    (list_prod float_samples float_samples)
  = true.
Proof. vm_compute. reflexivity. Qed.

(** ** Rounding to binary64 *)

Lemma pow2_pos (k : Z) : 0 <= k -> 0 < 2 ^ k.
Proof. intros H. apply Z.pow_pos_nonneg; lia. Qed.

Lemma pow2_split (a b : Z) : 0 <= a -> 0 <= b -> 2 ^ (a + b) = 2 ^ a * 2 ^ b.
Proof. intros Ha Hb. apply Z.pow_add_r; assumption. Qed.

Lemma pow2_3 (a b c : Z) :
  0 <= a -> 0 <= b -> 0 <= c -> 2 ^ (a + b + c) = 2 ^ a * 2 ^ b * 2 ^ c.
Proof. intros Ha Hb Hc. rewrite !pow2_split by lia. reflexivity. Qed.

(** [2^(ilog2 n d) <= n/d]. *)
Lemma ilog2_lower (n d : positive) :
  (0 <= Float.ilog2 n d -> Zpos d * 2 ^ Float.ilog2 n d <= Zpos n) /\
  (Float.ilog2 n d < 0 -> Zpos d <= Zpos n * 2 ^ (- Float.ilog2 n d)).
Proof.
  unfold Float.ilog2, Float.scale.
  destruct (Z.log2_spec (Zpos n)) as [Hn1 Hn2]; [lia|].
  destruct (Z.log2_spec (Zpos d)) as [Hd1 Hd2]; [lia|].
  pose proof (Z.log2_nonneg (Zpos n)) as Ha.
  pose proof (Z.log2_nonneg (Zpos d)) as Hb.
  set (a := Z.log2 (Zpos n)) in *. set (b := Z.log2 (Zpos d)) in *.
  replace (Z.succ b) with (b + 1) in Hd2 by lia.
  rewrite (pow2_split b 1) in Hd2 by lia. change (2 ^ 1) with 2 in Hd2.
  destruct (0 <=? a - b) eqn:He0.
  - apply Z.leb_le in He0.
    destruct (Zpos d * 2 ^ (a - b) <=? Zpos n) eqn:Hc.
    + apply Z.leb_le in Hc. split; [intros _; exact Hc|lia].
    + apply Z.leb_gt in Hc. split; intros He.
      * assert (Hab : 2 ^ a = 2 ^ b * 2 * 2 ^ (a - b - 1)).
        { replace (2 ^ a) with (2 ^ (b + 1 + (a - b - 1)))
            by (f_equal; lia).
          rewrite pow2_3 by lia. reflexivity. }
        pose proof (pow2_pos (a - b - 1)) as Hp.
        nia.
      * assert (a = b) as -> by lia.
        replace (- (b - b - 1)) with 1 by lia. change (2 ^ 1) with 2. lia.
  - apply Z.leb_gt in He0.
    destruct (Zpos d <=? Zpos n * 2 ^ (- (a - b))) eqn:Hc.
    + apply Z.leb_le in Hc. split; [lia|intros _; exact Hc].
    + split; [lia|intros _].
      assert (Hab : 2 ^ a * 2 ^ (- (a - b - 1)) = 2 ^ b * 2).
      { rewrite <- pow2_split by lia.
        replace (a + - (a - b - 1)) with (b + 1) by lia.
        rewrite pow2_split by lia. reflexivity. }
      pose proof (pow2_pos (- (a - b - 1))) as Hp.
      nia.
Qed.

Lemma rne_le (N D M : Z) : 0 < D -> N <= M * D -> Float.rne N D <= M.
Proof.
  intros HD HN. unfold Float.rne.
  pose proof (Z.div_mod N D) as Hdm.
  pose proof (Z.mod_pos_bound N D HD) as Hr.
  assert (Hq : N / D <= M) by nia.
  destruct (2 * (N mod D) ?= D) eqn:Hc.
  - apply Z.compare_eq in Hc.
    destruct (Z.even (N / D)); [lia|nia].
  - lia.
  - apply Z.compare_gt_iff in Hc. nia.
Qed.

Lemma rne_ge (N D : Z) : 0 < D -> N / D <= Float.rne N D.
Proof.
  intros HD. unfold Float.rne.
  destruct (2 * (N mod D) ?= D); [destruct (Z.even (N / D))| |]; lia.
Qed.

Lemma scale_nonpos (n d e : Z) :
  e <= 0 -> Float.scale n d e = (n * 2 ^ (- e), d).
Proof.
  intros He. unfold Float.scale.
  destruct (0 <=? e) eqn:H0; [|reflexivity].
  apply Z.leb_le in H0. assert (e = 0) as -> by lia.
  simpl. f_equal; lia.
Qed.

(** A quotient below the integer [K < 2^53] rounds to a float below [K]:
    [K] is a float, and rounding is monotone. *)
Lemma round_pos_le (n d : positive) (K : Z) :
  0 < K < 2 ^ 53 ->
  Zpos n <= K * Zpos d ->
  match Float.round_pos n d with
  | Float.RZero => True
  | Float.RFinite m e => e <= 0 /\ Zpos m <= K * 2 ^ (- e)
  | Float.ROverflow => False
  end.
Proof.
  intros HK Hn. unfold Float.round_pos.
  assert (He : Float.ilog2 n d <= 52).
  { destruct (Z.le_gt_cases (Float.ilog2 n d) 52) as [H|H]; [exact H|].
    destruct (ilog2_lower n d) as [Hl _].
    assert (H53 : 2 ^ 53 <= 2 ^ Float.ilog2 n d)
      by (apply Z.pow_le_mono_r; lia).
    specialize (Hl ltac:(lia)).
    assert (2 ^ Float.ilog2 n d <= K)
      by (apply (Z.mul_le_mono_pos_l _ _ (Zpos d)); lia).
    lia. }
  assert (Hfe : Float.ulp_exp (Float.ilog2 n d) <= 0).
  { cbv [Float.ulp_exp Float.prec Float.emin Float.emax]. lia. }
  set (fe := Float.ulp_exp (Float.ilog2 n d)) in *.
  rewrite scale_nonpos by exact Hfe.
  pose proof (pow2_pos (- fe) ltac:(lia)) as Hp.
  assert (Hr : Float.rne (Zpos n * 2 ^ (- fe)) (Zpos d) <= K * 2 ^ (- fe))
    by (apply rne_le; nia).
  destruct (Float.rne _ _) as [|m|m]; [exact I| |exact I].
  cbv [Float.prec Float.emax].
  destruct (Zpos m =? 2 ^ 53) eqn:Hm.
  - apply Z.eqb_eq in Hm.
    assert (Hlt : fe < 0).
    { destruct (Z.eq_dec fe 0) as [E|E]; [|lia].
      rewrite E in Hr. simpl in Hr. lia. }
    assert (Hs : 2 ^ (- fe) = 2 * 2 ^ (- (fe + 1))).
    { rewrite <- (pow2_split 1) by lia. f_equal. lia. }
    destruct (fe + 1 <=? 1024 - 53) eqn:Ho; [|apply Z.leb_gt in Ho; lia].
    split; [lia|].
    change (53 - 1) with 52.
    rewrite Z2Pos.id by (apply pow2_pos; lia).
    change (2 ^ 53) with (2 * 2 ^ 52) in Hm. nia.
  - destruct (fe <=? 1024 - 53) eqn:Ho; [|apply Z.leb_gt in Ho; lia].
    split; [lia|exact Hr].
Qed.

(** A quotient of at least one does not round to zero. *)
Lemma round_pos_nonzero (n d : positive) :
  (d <= n)%positive -> Float.round_pos n d <> Float.RZero.
Proof.
  intros Hdn. unfold Float.round_pos.
  set (fe := Float.ulp_exp (Float.ilog2 n d)).
  assert (H1 : let '(N, D) := Float.scale (Zpos n) (Zpos d) fe in
               0 < D /\ D <= N).
  { unfold Float.scale. destruct (0 <=? fe) eqn:H0.
    - apply Z.leb_le in H0.
      assert (Hfe : fe <= Float.ilog2 n d).
      { subst fe.
        cbv [Float.ulp_exp Float.prec Float.emin Float.emax] in *. lia. }
      destruct (ilog2_lower n d) as [Hl _]. specialize (Hl ltac:(lia)).
      pose proof (pow2_pos fe H0) as Hp.
      assert (2 ^ fe <= 2 ^ Float.ilog2 n d)
        by (apply Z.pow_le_mono_r; lia).
      split; nia.
    - apply Z.leb_gt in H0.
      pose proof (pow2_pos (- fe) ltac:(lia)) as Hp.
      split; [lia|]. nia. }
  destruct (Float.scale (Zpos n) (Zpos d) fe) as [N D].
  destruct H1 as [HD HN].
  pose proof (rne_ge N D HD) as Hge.
  assert (1 <= N / D) by (apply Z.div_le_lower_bound; lia).
  destruct (Float.rne N D) as [|m|m]; [lia| |lia].
  destruct (if Zpos m =? 2 ^ Float.prec
            then (Z.to_pos (2 ^ (Float.prec - 1)), fe + 1)
            else (m, fe)) as [m' e'].
  destruct (e' <=? Float.emax - Float.prec); discriminate.
Qed.

Lemma to_float_below (n d : positive) (K : Z) :
  0 < K < 2 ^ 53 ->
  Zpos n <= K * Zpos d ->
  Float.round_pos n d <> Float.ROverflow /\
  below K (Float.to_float false (Float.round_pos n d)).
Proof.
  intros HK Hn. pose proof (round_pos_le n d K HK Hn) as H.
  destruct (Float.round_pos n d); simpl; [| |contradiction];
    (split; [discriminate|assumption]).
Qed.

Lemma frac_nonpos (m : positive) (e : Z) :
  e <= 0 -> Float.frac m e = (m, Z.to_pos (2 ^ (- e))).
Proof.
  intros He. unfold Float.frac.
  destruct (0 <=? e) eqn:H0; [|reflexivity].
  apply Z.leb_le in H0. assert (e = 0) as -> by lia.
  simpl. rewrite Pos.mul_1_r. reflexivity.
Qed.

Lemma of_int_100 :
  Float.of_int 100 = Ok (S754_finite false 7036874417766400 (-46)).
Proof. vm_compute. reflexivity. Qed.

(** ** The acceptance rate lies between 0 and 100 *)

Lemma int_truediv_below (ac tot : Z) :
  0 <= ac <= tot -> 0 < tot ->
  exists q, Float.int_truediv ac tot = Ok q /\ below 1 q.
Proof.
  intros Hac Htot. unfold Float.int_truediv.
  destruct tot as [|t|t]; try lia.
  destruct ac as [|a|a]; try lia; simpl.
  - exists (S754_zero false). split; [reflexivity|exact I].
  - destruct (to_float_below a t 1) as [Ho Hb]; [lia|lia|].
    destruct (Float.round_pos a t) eqn:Hr; [| |contradiction];
      eexists; (split; [reflexivity|exact Hb]).
Qed.

Lemma mul_100_below (q : spec_float) :
  below 1 q -> exists p, float_mul_int q 100 = Ok p /\ below 100 p.
Proof.
  intros Hq. unfold float_mul_int. rewrite of_int_100. simpl bind.
  destruct q as [s|s| |[|] m e]; cbn [below] in Hq; try contradiction.
  - eexists. split; [reflexivity|exact I].
  - destruct Hq as [He Hm]. eexists. split; [reflexivity|].
    cbn [Float.mul xorb].
    rewrite frac_nonpos by lia.
    pose proof (pow2_pos (- (e + -46)) ltac:(lia)) as Hp.
    apply to_float_below; [lia|].
    rewrite Z2Pos.id by exact Hp.
    replace (- (e + -46)) with (46 + - e) by lia.
    rewrite pow2_split by lia.
    rewrite Pos2Z.inj_mul.
    change (Zpos 7036874417766400) with (100 * 2 ^ 46).
    assert (Zpos m * 2 ^ 46 <= 2 ^ (- e) * 2 ^ 46)
      by (apply Z.mul_le_mono_nonneg_r; lia).
    lia.
Qed.

Lemma round2_below (p : spec_float) :
  below 100 p -> exists f, Float.round2 p = Ok f /\ below 100 f.
Proof.
  intros Hp.
  destruct p as [s|s| |[|] m e]; cbn [below] in Hp; try contradiction.
  - eexists. split; [reflexivity|exact I].
  - destruct Hp as [He Hm]. unfold Float.round2.
    rewrite frac_nonpos by exact He.
    pose proof (pow2_pos (- e) ltac:(lia)) as Hpw.
    rewrite Z2Pos.id by exact Hpw.
    assert (Hk : Float.rne (100 * Zpos m) (2 ^ (- e)) <= 10000)
      by (apply rne_le; lia).
    destruct (Float.rne (100 * Zpos m) (2 ^ (- e))) as [|k|k].
    + eexists. split; [reflexivity|exact I].
    + destruct (to_float_below k 100 100) as [Ho Hb]; [lia|lia|].
      destruct (Float.round_pos k 100) eqn:Hr; [| |contradiction];
        eexists; (split; [reflexivity|exact Hb]).
    + eexists. split; [reflexivity|exact I].
Qed.

Lemma below_Q (K : Z) (f : spec_float) :
  0 <= K -> below K f ->
  Float.is_finite f = true /\ (0 <= Float.to_Q f <= inject_Z K)%Q.
Proof.
  intros HK Hf.
  destruct f as [s|s| |[|] m e]; cbn [below] in Hf; try contradiction.
  - split; [reflexivity|]. simpl. split; [apply Qle_refl|].
    rewrite Zle_Qle in HK. exact HK.
  - destruct Hf as [He Hm]. split; [reflexivity|].
    cbn [Float.to_Q].
    pose proof (pow2_pos (- e) ltac:(lia)) as Hp.
    assert (Hc : (2 ^ e == / inject_Z (2 ^ (- e)))%Q).
    { rewrite Zpower_Qpower by lia. rewrite <- Qpower_opp.
      rewrite Z.opp_involutive. reflexivity. }
    rewrite Hc. split.
    + apply Qmult_le_0_compat.
      * rewrite <- (Zle_Qle 0). lia.
      * apply Qinv_le_0_compat. rewrite <- (Zle_Qle 0). lia.
    + apply Qle_shift_div_r.
      * rewrite <- (Zlt_Qlt 0). exact Hp.
      * rewrite <- inject_Z_mult, <- Zle_Qle. exact Hm.
Qed.

(** The rate of a well-formed pair of counts. *)
Lemma acceptance_rate_bounds (ac tot : Z) :
  0 <= ac <= tot -> 0 < tot ->
  exists f,
    (q <- Float.int_truediv ac tot ;;
     p <- float_mul_int q 100 ;;
     Float.round2 p) = Ok f /\
    Float.is_finite f = true /\ (0 <= Float.to_Q f <= 100)%Q.
Proof.
  intros Hac Htot.
  destruct (int_truediv_below ac tot Hac Htot) as (q & Hq & Bq).
  destruct (mul_100_below q Bq) as (p & Hp & Bp).
  destruct (round2_below p Bp) as (f & Hf & Bf).
  exists f. rewrite Hq. cbn [bind]. rewrite Hp. cbn [bind].
  split; [exact Hf|].
  apply (below_Q 100); [lia|exact Bf].
Qed.

(** ** No division by zero *)

Lemma no_zde_bind {A B : Type} (c : res A) (k : A -> res B) :
  no_zde c -> (forall a, c = Ok a -> no_zde (k a)) -> no_zde (bind c k).
Proof.
  intros Hc Hk. destruct c as [a|e]; simpl.
  - apply Hk. reflexivity.
  - intros H. apply Hc. injection H as ->. reflexivity.
Qed.

Lemma no_zde_ok {A : Type} (a : A) : no_zde (Ok a).
Proof. discriminate. Qed.

Lemma no_zde_py_get (v : json) (k : string) (d : json) :
  no_zde (py_get v k d).
Proof. destruct v; discriminate. Qed.

Lemma no_zde_hash_key (v : json) : no_zde (hash_key v).
Proof. destruct v; discriminate. Qed.

Lemma no_zde_by_diff_items (items : list json) :
  forall acc, no_zde (by_diff_items items acc).
Proof.
  induction items as [|item rest IH]; intros acc; cbn [by_diff_items].
  - apply no_zde_ok.
  - apply no_zde_bind; [apply no_zde_py_get|intros k _].
    apply no_zde_bind; [apply no_zde_hash_key|intros h _]. apply IH.
Qed.

Lemma no_zde_by_diff (lst : json) : no_zde (by_diff lst).
Proof.
  unfold by_diff. apply no_zde_bind.
  - destruct lst; discriminate.
  - intros items _. apply no_zde_by_diff_items.
Qed.

Lemma no_zde_has_errors (data : json) : no_zde (has_errors data).
Proof.
  unfold has_errors. apply no_zde_bind.
  - destruct data; discriminate.
  - intros [|] _; [|apply no_zde_ok].
    apply no_zde_bind; [|intros; apply no_zde_ok].
    destruct data; try discriminate. simpl.
    destruct (dict_get String.eqb o "errors"); discriminate.
Qed.

(** A non-zero [int] converts to a non-zero float. *)
Lemma of_int_nonzero (z : Z) (f : spec_float) :
  z <> 0 -> Float.of_int z = Ok f -> Float.is_zero f = false.
Proof.
  intros Hz. unfold Float.of_int.
  destruct z as [|p|p]; [contradiction| |];
    pose proof (round_pos_nonzero p 1 (Pos.le_1_l p)) as Hr;
    destruct (Float.round_pos p 1); try contradiction; try discriminate;
    intros H; injection H as <-; reflexivity.
Qed.

Lemma no_zde_of_int (z : Z) : no_zde (Float.of_int z).
Proof.
  unfold Float.of_int.
  destruct z as [|p|p]; try discriminate;
    destruct (Float.round_pos p 1); discriminate.
Qed.

Lemma no_zde_int_truediv (a b : Z) :
  b <> 0 -> no_zde (Float.int_truediv a b).
Proof.
  intros Hb. unfold Float.int_truediv.
  destruct b as [|q|q]; [contradiction| |];
    (destruct a as [|p|p]; [discriminate| |]);
    match goal with
    | |- context [Float.round_pos ?n ?d] =>
        destruct (Float.round_pos n d); discriminate
    end.
Qed.

Lemma no_zde_float_truediv (x y : spec_float) :
  Float.is_zero y = false -> no_zde (float_truediv x y).
Proof.
  intros Hy. unfold float_truediv. rewrite Hy. discriminate.
Qed.

(** The guard [if tot] keeps the zero divisors away from [/]. *)
Lemma no_zde_py_truediv (a b : json) :
  truthy b = true -> no_zde (py_truediv a b).
Proof.
  intros Ht. unfold py_truediv.
  destruct (as_num a) as [[x|x]|] eqn:Ha; [| |discriminate].
  - destruct b as [|[|]|z|f|s|l|o]; cbn [as_num truthy] in *;
      try discriminate.
    + apply no_zde_int_truediv. lia.
    + apply no_zde_int_truediv. apply negb_true_iff in Ht.
      apply Z.eqb_neq in Ht. exact Ht.
    + apply no_zde_bind; [apply no_zde_of_int|intros fx _].
      apply no_zde_float_truediv. apply negb_true_iff. exact Ht.
  - destruct b as [|[|]|z|f|s|l|o]; cbn [as_num truthy] in *;
      try discriminate.
    + apply no_zde_bind; [apply no_zde_of_int|intros fy Hfy].
      apply no_zde_float_truediv. apply (of_int_nonzero z); [|exact Hfy].
      apply negb_true_iff in Ht. apply Z.eqb_neq in Ht. exact Ht.
    + apply no_zde_float_truediv. apply negb_true_iff. exact Ht.
Qed.

Lemma no_zde_round2 (x : spec_float) : no_zde (Float.round2 x).
Proof.
  unfold Float.round2. destruct x as [s|s| |s m e]; try discriminate.
  destruct (Float.frac m e) as [n d].
  destruct (Float.rne (100 * Zpos n) (Zpos d)) as [|k|k]; try discriminate.
  destruct (Float.round_pos k 100); discriminate.
Qed.

Lemma no_zde_acceptance_rate (ac tot : json) :
  no_zde (acceptance_rate ac tot).
Proof.
  unfold acceptance_rate.
  destruct (truthy tot) eqn:Ht; [|apply no_zde_ok].
  apply no_zde_bind; [apply no_zde_py_truediv; exact Ht|intros q _].
  apply no_zde_bind; [|intros p _; apply no_zde_round2].
  unfold float_mul_int. rewrite of_int_100. discriminate.
Qed.

Lemma no_zde_bucket (ac_map total_map : list (hkey * json)) (diff : string) :
  no_zde (bucket ac_map total_map diff).
Proof.
  unfold bucket.
  repeat (apply no_zde_bind; [apply no_zde_py_get|intros ? _]).
  apply no_zde_bind; [apply no_zde_acceptance_rate|intros ? _].
  apply no_zde_ok.
Qed.

Lemma no_zde_build_stats (ac_map total_map : list (hkey * json))
    (diffs : list string) :
  forall stats, no_zde (build_stats ac_map total_map diffs stats).
Proof.
  induction diffs as [|diff rest IH]; intros stats; cbn [build_stats].
  - apply no_zde_ok.
  - apply no_zde_bind; [apply no_zde_bucket|intros b _]. apply IH.
Qed.

Lemma no_zde_shape (data matched : json) : no_zde (shape data matched).
Proof.
  unfold shape.
  repeat (apply no_zde_bind; [apply no_zde_py_get|intros ? _]).
  repeat (apply no_zde_bind; [apply no_zde_by_diff|intros ? _]).
  apply no_zde_bind; [apply no_zde_build_stats|intros ? _].
  repeat (apply no_zde_bind; [apply no_zde_py_get|intros ? _]).
  apply no_zde_bind.
  { match goal with
    | |- no_zde (if ?c then _ else _) =>
        destruct c; [apply no_zde_ok|apply no_zde_py_get]
    end. }
  intros ? _.
  repeat (apply no_zde_bind; [apply no_zde_py_get|intros ? _]).
  apply no_zde_ok.
Qed.

Lemma no_zde_fetch
    (requests_post : string -> json -> Z -> string + response)
    (username : string) :
  no_zde (fetch_leetcode_user requests_post username).
Proof.
  unfold fetch_leetcode_user.
  apply no_zde_bind.
  { destruct (requests_post _ _ _); discriminate. }
  intros r _. destruct (negb (status_code r =? 200)); [discriminate|].
  apply no_zde_bind.
  { destruct (r_json r); discriminate. }
  intros data _.
  apply no_zde_bind; [apply no_zde_has_errors|intros [|] _];
    [discriminate|].
  apply no_zde_bind; [apply no_zde_py_get|intros d _].
  apply no_zde_bind; [apply no_zde_py_get|intros matched _].
  destruct (negb (truthy matched)); [discriminate|apply no_zde_shape].
Qed.

(** ** The acceptance rate of a bucket *)

Lemma path_stats (dd m p stats : list (string * json)) (k : string) :
  path (result_dict dd m p stats) ["stats"; k]
  = dict_get String.eqb stats k.
Proof.
  unfold path.
  change (field (result_dict dd m p stats) "stats")
    with (Some (JObj stats)).
  cbn [field]. destruct (dict_get String.eqb stats k); reflexivity.
Qed.

Section Rates.

Variable requests_post : string -> json -> Z -> string + response.
Variable username : string.
Variable res : json.
Hypothesis Hfetch : fetch_leetcode_user requests_post username = Ok res.

(** Every bucket of the result holds the rate of its own two counts. *)
Lemma bucket_rate (k : string) (b : json) :
  path res ["stats"; k] = Some b ->
  exists ac tot f submissions,
    acceptance_rate ac tot = Ok f /\
    b = JObj [("solved", ac);
              ("total", tot);
              ("acceptanceRate", JFloat f);
              ("submissions", submissions)].
Proof.
  destruct (fetch_ok_shape _ _ _ Hfetch)
    as (r & o & dd & m & p & sg & am & tm & stats
        & _ & _ & _ & _ & _ & _ & _ & _ & _ & Hst & ->).
  apply build_stats_ok in Hst
    as (all & easy & medium & hard & Ha & He & Hm & Hh & ->).
  rewrite path_stats. intros Hk.
  apply stats_lookup in Hk
    as [[_ <-]|[[_ <-]|[[_ <-]|[_ <-]]]];
    match goal with
    | H : bucket _ _ _ = Ok b |- _ =>
        apply bucket_ok in H as (ac & tot & sub & f & _ & _ & _ & Hf & ->);
        exists ac, tot, f, sub; split; [exact Hf|reflexivity]
    end.
Qed.

End Rates.

Lemma py_is_zero_falsy (v : json) : py_is_zero v = true -> truthy v = false.
Proof.
  destruct v; simpl; intros H; try discriminate.
  - apply negb_true_iff in H. exact H.
  - rewrite H. reflexivity.
  - rewrite H. reflexivity.
Qed.

(** C3: no fetch ends in a division by zero, and in the result of a
    successful fetch every bucket whose [total] is zero has the
    [acceptanceRate] [0.0]. *)
Theorem zero_total_rate
    (requests_post : string -> json -> Z -> string + response)
    (username : string) :
  fetch_leetcode_user requests_post username <> Raise ZeroDivisionError /\
  forall (res : json) (k : string) (b tot : json),
    fetch_leetcode_user requests_post username = Ok res ->
    path res ["stats"; k] = Some b ->
    field b "total" = Some tot ->
    py_is_zero tot = true ->
    field b "acceptanceRate" = Some (JFloat (S754_zero false)).
Proof.
  split; [apply no_zde_fetch|].
  intros res k b tot Hfetch Hb Htot Hz.
  destruct (bucket_rate _ _ _ Hfetch k b Hb)
    as (ac & tot' & f & sub & Hf & ->).
  cbn in Htot. injection Htot as ->.
  unfold acceptance_rate in Hf. rewrite (py_is_zero_falsy _ Hz) in Hf.
  injection Hf as <-. reflexivity.
Qed.

Lemma zero_total_rate_witness :
  exists res b,
    fetch_leetcode_user (reply 200 (Some sample_body)) "alice" = Ok res /\
    path res ["stats"; "all"] = Some b /\
    field b "total" = Some (JInt 0) /\
    field b "acceptanceRate" = Some (JFloat (S754_zero false)).
Proof.
  eexists. eexists.
  split; [vm_compute; reflexivity|].
  split; [vm_compute; reflexivity|].
  split; [vm_compute; reflexivity|].
  eapply (proj2 (zero_total_rate (reply 200 (Some sample_body)) "alice")
            _ "all" _ (JInt 0));
    vm_compute; reflexivity.
Defined.

(** C4: in the result of a successful fetch, a bucket with the integer
    counts [solved = ac] and [total = tot], [tot > 0], has the
    [acceptanceRate] [round(ac / tot * 100, 2)]; when [0 <= ac <= tot] that
    float is finite and lies between 0 and 100. *)
Theorem acceptance_rate_rounded
    (requests_post : string -> json -> Z -> string + response)
    (username : string) (res : json) (k : string) (b : json) (ac tot : Z) :
  fetch_leetcode_user requests_post username = Ok res ->
  path res ["stats"; k] = Some b ->
  field b "solved" = Some (JInt ac) ->
  field b "total" = Some (JInt tot) ->
  0 < tot ->
  exists f,
    field b "acceptanceRate" = Some (JFloat f) /\
    (q <- Float.int_truediv ac tot ;;
     p <- float_mul_int q 100 ;;
     Float.round2 p) = Ok f /\
    (0 <= ac <= tot ->
     Float.is_finite f = true /\ (0 <= Float.to_Q f <= 100)%Q).
Proof.
  intros Hfetch Hb Hac Htot Hpos.
  destruct (bucket_rate _ _ _ Hfetch k b Hb)
    as (ac' & tot' & f & sub & Hf & ->).
  cbn in Hac, Htot. injection Hac as ->. injection Htot as ->.
  unfold acceptance_rate in Hf. cbn [truthy] in Hf.
  replace (tot =? 0) with false in Hf by (symmetry; apply Z.eqb_neq; lia).
  cbn [negb py_truediv as_num] in Hf.
  exists f. split; [reflexivity|]. split; [exact Hf|].
  intros Hwf.
  destruct (acceptance_rate_bounds ac tot Hwf Hpos) as (f' & Hf' & Hfin & HQ).
  rewrite Hf in Hf'. injection Hf' as <-. split; assumption.
Qed.

Lemma acceptance_rate_rounded_witness :
  exists res b f,
    fetch_leetcode_user (reply 200 (Some sample_body)) "alice" = Ok res /\
    path res ["stats"; "easy"] = Some b /\
    field b "acceptanceRate" = Some (JFloat f) /\
    (q <- Float.int_truediv 10 20 ;;
     p <- float_mul_int q 100 ;;
     Float.round2 p) = Ok f /\
    Float.is_finite f = true /\ (0 <= Float.to_Q f <= 100)%Q.
Proof.
  destruct (fetch_leetcode_user (reply 200 (Some sample_body)) "alice")
    as [res|e] eqn:Hres; [|vm_compute in Hres; discriminate].
  destruct (path res ["stats"; "easy"]) as [b|] eqn:Hb;
    [|vm_compute in Hres; injection Hres as <-; vm_compute in Hb;
      discriminate].
  assert (Hs : field b "solved" = Some (JInt 10) /\
               field b "total" = Some (JInt 20)).
  { vm_compute in Hres. injection Hres as <-. vm_compute in Hb.
    injection Hb as <-. split; reflexivity. }
  destruct Hs as [Hac Htot].
  destruct (acceptance_rate_rounded _ _ _ _ _ 10 20 Hres Hb Hac Htot
              ltac:(lia)) as (f & Hf & Hr & Hbound).
  exists res, b, f.
  split; [reflexivity|]. split; [exact Hb|].
  split; [exact Hf|]. split; [exact Hr|]. apply Hbound. lia.
Defined.

(** * Further properties of [fetch_leetcode_user] *)

(** ** Which exceptions, and when *)

Lemma raises_only_bind {A B : Type} (P : exn -> Prop)
    (c : res A) (k : A -> res B) :
  raises_only P c ->
  (forall a, c = Ok a -> raises_only P (k a)) ->
  raises_only P (bind c k).
Proof.
  intros Hc Hk e. destruct c as [a|e0]; simpl.
  - apply Hk. reflexivity.
  - intros H. injection H as <-. apply Hc. reflexivity.
Qed.

Lemma raises_only_ok {A : Type} (P : exn -> Prop) (a : A) :
  raises_only P (Ok a).
Proof. intros e H. discriminate. Qed.

Lemma raises_only_weaken {A : Type} (P Q : exn -> Prop) (c : res A) :
  (forall e, P e -> Q e) -> raises_only P c -> raises_only Q c.
Proof. intros HPQ Hc e He. apply HPQ, Hc, He. Qed.

Lemma py_get_raises (v : json) (k : string) (d : json) :
  raises_only (fun e => e = AttributeError) (py_get v k d).
Proof. intros e. destruct v; simpl; intros H; congruence. Qed.

Lemma py_get_runtime (v : json) (k : string) (d : json) :
  raises_only runtime_error (py_get v k d).
Proof.
  apply (raises_only_weaken (fun e => e = AttributeError));
    [|apply py_get_raises].
  intros e ->. right. left. reflexivity.
Qed.

Lemma py_get_lookup (v : json) (k : string) (d : json) :
  raises_only lookup_error (py_get v k d).
Proof.
  apply (raises_only_weaken (fun e => e = AttributeError));
    [|apply py_get_raises].
  intros e ->. right. reflexivity.
Qed.

Lemma by_diff_items_raises (items : list json) :
  forall acc, raises_only lookup_error (by_diff_items items acc).
Proof.
  induction items as [|item rest IH]; intros acc; cbn [by_diff_items].
  - apply raises_only_ok.
  - apply raises_only_bind; [apply py_get_lookup|intros k _].
    apply raises_only_bind; [|intros h _; apply IH].
    intros e. destruct k; simpl; intros H; try discriminate;
      injection H as <-; left; reflexivity.
Qed.

Lemma by_diff_raises (lst : json) : raises_only lookup_error (by_diff lst).
Proof.
  unfold by_diff. apply raises_only_bind.
  - intros e. destruct lst; simpl; intros H; try discriminate;
      injection H as <-; left; reflexivity.
  - intros items _. apply by_diff_items_raises.
Qed.

Lemma lookup_is_runtime (e : exn) : lookup_error e -> runtime_error e.
Proof. intros [->| ->]; [left|right; left]; reflexivity. Qed.

(** The guard ["errors" in data] makes the subscript safe: no [KeyError]. *)
Lemma has_errors_raises (data : json) :
  raises_only (fun e => e = TypeError) (has_errors data).
Proof.
  intros e. unfold has_errors.
  destruct data as [|b|z|f|s|l|o]; simpl; try congruence.
  - destruct (str_contains "errors" s); simpl; congruence.
  - destruct (existsb (is_str "errors") l); simpl; congruence.
  - destruct (dict_get String.eqb o "errors"); simpl; congruence.
Qed.

Lemma of_int_raises (z : Z) :
  raises_only (fun e => e = OverflowError) (Float.of_int z).
Proof.
  intros e. unfold Float.of_int.
  destruct z as [|p|p]; try discriminate;
    destruct (Float.round_pos p 1); congruence.
Qed.

Lemma int_truediv_raises (a b : Z) :
  b <> 0 -> raises_only (fun e => e = OverflowError) (Float.int_truediv a b).
Proof.
  intros Hb e. unfold Float.int_truediv.
  destruct b as [|q|q]; [contradiction| |];
    (destruct a as [|p|p]; [discriminate| |]);
    match goal with
    | |- context [Float.round_pos ?n ?d] =>
        destruct (Float.round_pos n d); congruence
    end.
Qed.

Lemma py_truediv_raises (a b : json) :
  truthy b = true -> raises_only runtime_error (py_truediv a b).
Proof.
  intros Ht e He.
  assert (Hz : e <> ZeroDivisionError).
  { intros ->. exact (no_zde_py_truediv a b Ht He). }
  revert He. unfold py_truediv.
  destruct (as_num a) as [[x|x]|]; [| |intros H; left; congruence].
  - destruct (as_num b) as [[y|y]|]; [| |intros H; left; congruence].
    + unfold Float.int_truediv.
      destruct y as [|q|q]; [congruence| |];
        (destruct x as [|p|p]; [discriminate| |]);
        match goal with
        | |- context [Float.round_pos ?n ?d] =>
            destruct (Float.round_pos n d); try discriminate;
            intros H; right; right; congruence
        end.
    + intros H. destruct (Float.of_int x) as [fx|e0] eqn:Hx; simpl in H.
      * unfold float_truediv in H.
        destruct (Float.is_zero y); congruence.
      * apply of_int_raises in Hx. right; right. congruence.
  - destruct (as_num b) as [[y|y]|]; [| |intros H; left; congruence].
    + intros H. destruct (Float.of_int y) as [fy|e0] eqn:Hy; simpl in H.
      * unfold float_truediv in H.
        destruct (Float.is_zero fy); congruence.
      * apply of_int_raises in Hy. right; right. congruence.
    + unfold float_truediv.
      destruct (Float.is_zero y); congruence.
Qed.

Lemma round2_raises (x : spec_float) :
  raises_only (fun e => e = OverflowError) (Float.round2 x).
Proof.
  intros e. unfold Float.round2. destruct x as [s|s| |s m e0];
    try discriminate.
  destruct (Float.frac m e0) as [n d].
  destruct (Float.rne (100 * Zpos n) (Zpos d)) as [|k|k]; try discriminate.
  destruct (Float.round_pos k 100); congruence.
Qed.

Lemma acceptance_rate_raises (ac tot : json) :
  raises_only runtime_error (acceptance_rate ac tot).
Proof.
  unfold acceptance_rate.
  destruct (truthy tot) eqn:Ht; [|apply raises_only_ok].
  apply raises_only_bind; [apply py_truediv_raises; exact Ht|intros q _].
  apply raises_only_bind.
  - unfold float_mul_int. rewrite of_int_100. intros e H. discriminate.
  - intros p _.
    apply (raises_only_weaken (fun e => e = OverflowError));
      [|apply round2_raises].
    intros e ->. right; right. reflexivity.
Qed.

Lemma bucket_raises (ac_map total_map : list (hkey * json)) (diff : string) :
  raises_only runtime_error (bucket ac_map total_map diff).
Proof.
  unfold bucket.
  repeat (apply raises_only_bind; [apply py_get_runtime|intros ? _]).
  apply raises_only_bind; [apply acceptance_rate_raises|intros ? _].
  apply raises_only_ok.
Qed.

Lemma build_stats_raises (ac_map total_map : list (hkey * json))
    (diffs : list string) :
  forall stats,
    raises_only runtime_error (build_stats ac_map total_map diffs stats).
Proof.
  induction diffs as [|diff rest IH]; intros stats; cbn [build_stats].
  - apply raises_only_ok.
  - apply raises_only_bind; [apply bucket_raises|intros b _]. apply IH.
Qed.

Lemma shape_raises (data matched : json) :
  raises_only runtime_error (shape data matched).
Proof.
  unfold shape.
  repeat (apply raises_only_bind; [apply py_get_runtime|intros ? _]).
  repeat (apply raises_only_bind;
          [apply (raises_only_weaken lookup_error);
           [exact lookup_is_runtime|apply by_diff_raises]
          |intros ? _]).
  apply raises_only_bind; [apply build_stats_raises|intros ? _].
  repeat (apply raises_only_bind; [apply py_get_runtime|intros ? _]).
  apply raises_only_bind.
  { match goal with
    | |- raises_only _ (if ?c then _ else _) =>
        destruct c; [apply raises_only_ok|apply py_get_runtime]
    end. }
  intros ? _.
  repeat (apply raises_only_bind; [apply py_get_runtime|intros ? _]).
  apply raises_only_ok.
Qed.

Lemma errors_truthy_iff (o : list (string * json)) :
  errors_truthy o = true <-> errors_reported o.
Proof.
  unfold errors_truthy, errors_reported. split.
  - destruct (dict_get String.eqb o "errors") as [e|]; [|discriminate].
    intros H. exists e. split; [reflexivity|exact H].
  - intros (e & -> & He). exact He.
Qed.

Lemma shape_reads_data (o1 o2 : list (string * json)) (matched : json) :
  dict_get String.eqb o1 "data" = dict_get String.eqb o2 "data" ->
  shape (JObj o1) matched = shape (JObj o2) matched.
Proof.
  intros H. unfold shape. cbn [py_get]. unfold get_or. rewrite H.
  reflexivity.
Qed.

Section Outcomes.

Variable requests_post : string -> json -> Z -> string + response.
Variable username : string.

(** The fetch on a reply with status 200 whose body is an object. *)
Lemma fetch_200_object (r : response) (o : list (string * json)) :
  requests_post LEETCODE_GRAPHQL_URL (payload username) 12 = inr r ->
  status_code r = 200 ->
  r_json r = Some (JObj o) ->
  fetch_leetcode_user requests_post username
  = if errors_truthy o then
      Raise (HTTPException 404 "User not found or LeetCode error")
    else
      match get_or o "data" (JObj []) with
      | JObj dd =>
          if negb (truthy (get_or dd "matchedUser" JNull)) then
            Raise (HTTPException 404 "User not found")
          else shape (JObj o) (get_or dd "matchedUser" JNull)
      | _ => Raise AttributeError
      end.
Proof.
  intros Hp Hs Hj. rewrite (status_200 _ _ _ Hp _ Hs Hj).
  unfold has_errors, errors_truthy. cbn [py_in py_getitem bind].
  destruct (dict_get String.eqb o "errors") as [e|]; cbn [bind].
  - destruct (truthy e); [reflexivity|]. cbn [py_get bind].
    destruct (get_or o "data" (JObj [])); reflexivity.
  - cbn [py_get bind].
    destruct (get_or o "data" (JObj [])); reflexivity.
Qed.

(** How a fetch can fail, case by case. *)
Lemma fetch_raises (e : exn) :
  fetch_leetcode_user requests_post username = Raise e ->
  (exists msg,
     requests_post LEETCODE_GRAPHQL_URL (payload username) 12 = inl msg /\
     e = HTTPException 502 ("Failed to reach LeetCode: " ++ msg)) \/
  (exists r,
     requests_post LEETCODE_GRAPHQL_URL (payload username) 12 = inr r /\
     status_code r <> 200 /\
     e = HTTPException 502
           ("LeetCode API error: HTTP " ++ str_of_int (status_code r))) \/
  (exists r,
     requests_post LEETCODE_GRAPHQL_URL (payload username) 12 = inr r /\
     status_code r = 200 /\ r_json r = None /\ e = JSONDecodeError) \/
  (exists r data,
     requests_post LEETCODE_GRAPHQL_URL (payload username) 12 = inr r /\
     status_code r = 200 /\ r_json r = Some data /\
     (e = HTTPException 404 "User not found or LeetCode error" \/
      e = HTTPException 404 "User not found" \/
      runtime_error e)).
Proof.
  unfold fetch_leetcode_user. intros H.
  destruct (requests_post _ _ _) as [msg|r] eqn:Hp; cbn [bind] in H.
  { injection H as <-. left. exists msg. split; reflexivity. }
  destruct (status_code r =? 200) eqn:Hs; cbn [negb] in H.
  2:{ apply Z.eqb_neq in Hs. injection H as <-.
      right; left. exists r. repeat split; assumption. }
  apply Z.eqb_eq in Hs. right; right.
  destruct (r_json r) as [data|] eqn:Hj; cbn [bind] in H.
  2:{ injection H as <-. left. exists r. repeat split; assumption. }
  right. exists r, data.
  repeat (split; [reflexivity || assumption|]).
  destruct (has_errors data) as [[|]|e0] eqn:He; cbn [bind] in H.
  - left. congruence.
  - destruct (py_get data "data" (JObj [])) as [d|e1] eqn:Hd;
      cbn [bind] in H.
    + destruct (py_get d "matchedUser" JNull) as [m|e2] eqn:Hm;
        cbn [bind] in H.
      * destruct (negb (truthy m)).
        -- right; left. congruence.
        -- right; right. exact (shape_raises _ _ _ H).
      * right; right. injection H as <-.
        exact (py_get_runtime _ _ _ _ Hm).
    + right; right. injection H as <-.
      exact (py_get_runtime _ _ _ _ Hd).
  - right; right. injection H as <-.
    apply has_errors_raises in He. subst e0. left. reflexivity.
Qed.

End Outcomes.


(** X1: the fetch fails with the 502 [HTTPException] exactly when the
    request raised, the detail carrying the message of the exception, or
    when the reply has a status other than 200, the detail carrying the
    status; the body of such a reply is never looked at. *)
Theorem bad_gateway_iff
    (requests_post : string -> json -> Z -> string + response)
    (username detail : string) :
  fetch_leetcode_user requests_post username
  = Raise (HTTPException 502 detail)
  <->
  (exists msg,
     requests_post LEETCODE_GRAPHQL_URL (payload username) 12 = inl msg /\
     detail = "Failed to reach LeetCode: " ++ msg) \/
  (exists r,
     requests_post LEETCODE_GRAPHQL_URL (payload username) 12 = inr r /\
     status_code r <> 200 /\
     detail = "LeetCode API error: HTTP " ++ str_of_int (status_code r)).
Proof.
  split.
  - intros H. apply fetch_raises in H
      as [(msg & Hp & He)|[(r & Hp & Hs & He)|[(r & _ & _ & _ & He)
          |(r & data & _ & _ & _ & [He|[He|[He|[He|He]]]])]]];
      try discriminate.
    + left. exists msg. split; [exact Hp|congruence].
    + right. exists r. repeat split; [exact Hp|exact Hs|congruence].
  - intros [(msg & Hp & ->)|(r & Hp & Hs & ->)].
    + unfold fetch_leetcode_user. rewrite Hp. reflexivity.
    + apply status_not_200; assumption.
Qed.

(** X2: on a reply with status 200 whose body [r.json()] returned, a fetch
    that fails ends in one of the two 404 [HTTPException]s or in a
    [TypeError], [AttributeError] or [OverflowError] of the shaping code; it
    never ends in the 502, in a [KeyError] or in a [ZeroDivisionError]. *)
Theorem parsed_reply_failure_kinds
    (requests_post : string -> json -> Z -> string + response)
    (username : string) (r : response) (data : json) (e : exn) :
  requests_post LEETCODE_GRAPHQL_URL (payload username) 12 = inr r ->
  status_code r = 200 ->
  r_json r = Some data ->
  fetch_leetcode_user requests_post username = Raise e ->
  e = HTTPException 404 "User not found or LeetCode error" \/
  e = HTTPException 404 "User not found" \/
  e = TypeError \/ e = AttributeError \/ e = OverflowError.
Proof.
  intros Hp Hs Hj H. apply fetch_raises in H
    as [(msg & Hp' & _)|[(r' & Hp' & Hs' & _)|[(r' & Hp' & _ & Hj' & _)
        |(r' & data' & _ & _ & _ & [->|[->|[->|[->| ->]]]])]]];
    auto 10.
  - congruence.
  - rewrite Hp in Hp'. injection Hp' as <-. contradiction.
  - rewrite Hp in Hp'. injection Hp' as <-. congruence.
Qed.

Lemma parsed_reply_failure_kinds_witness :
  fetch_leetcode_user
    (reply 200 (Some (JObj [("data", JObj [("matchedUser", JStr "x")])])))
    "alice"
  = Raise AttributeError /\
  (AttributeError = HTTPException 404 "User not found or LeetCode error" \/
   AttributeError = HTTPException 404 "User not found" \/
   AttributeError = TypeError \/ AttributeError = AttributeError \/
   AttributeError = OverflowError).
Proof.
  split; [reflexivity|].
  apply (parsed_reply_failure_kinds
           (reply 200
              (Some (JObj [("data", JObj [("matchedUser", JStr "x")])])))
           "alice"
           {| status_code := 200;
              r_json :=
                Some (JObj [("data", JObj [("matchedUser", JStr "x")])]) |}
           (JObj [("data", JObj [("matchedUser", JStr "x")])])
           AttributeError eq_refl eq_refl eq_refl).
  reflexivity.
Defined.

Section Status200.

Variable requests_post : string -> json -> Z -> string + response.
Variable username : string.
Variable r : response.
Variable o : list (string * json).
Hypothesis Hpost :
  requests_post LEETCODE_GRAPHQL_URL (payload username) 12 = inr r.
Hypothesis Hstatus : status_code r = 200.
Hypothesis Hjson : r_json r = Some (JObj o).

(** X3: on a reply with status 200 and an object as body, the fetch fails
    with the 404 "User not found or LeetCode error" exactly when the body
    has an [errors] member that is truthy: a non-empty array, but also a
    non-empty string or object, a non-zero number or [true]. *)
Theorem errors_not_found_iff :
  fetch_leetcode_user requests_post username
  = Raise (HTTPException 404 "User not found or LeetCode error")
  <-> errors_reported o.
Proof.
  rewrite (fetch_200_object _ _ _ _ Hpost Hstatus Hjson).
  rewrite <- errors_truthy_iff.
  destruct (errors_truthy o); [split; reflexivity|].
  split; [|discriminate].
  destruct (get_or o "data" (JObj [])) as [|b|z|f|s|l|dd];
    try discriminate.
  destruct (negb (truthy (get_or dd "matchedUser" JNull)));
    [discriminate|].
  intros H. apply shape_raises in H as [H|[H|H]]; discriminate.
Qed.

(** X4: on such a reply, the fetch fails with the 404 "User not found"
    exactly when no errors are reported, the [data] member is absent or an
    object, and its [matchedUser] is absent or falsy: [null], but also an
    empty object, an empty string or array, zero or [false]. *)
Theorem user_not_found_iff :
  fetch_leetcode_user requests_post username
  = Raise (HTTPException 404 "User not found")
  <->
  ~ errors_reported o /\
  exists dd,
    get_or o "data" (JObj []) = JObj dd /\
    truthy (get_or dd "matchedUser" JNull) = false.
Proof.
  rewrite (fetch_200_object _ _ _ _ Hpost Hstatus Hjson).
  rewrite <- errors_truthy_iff.
  destruct (errors_truthy o).
  - split; [discriminate|]. intros [H _]. exfalso. apply H. reflexivity.
  - destruct (get_or o "data" (JObj [])) as [|b|z|f|s|l|dd];
      try (split; [discriminate|intros (_ & dd & H & _); discriminate]).
    destruct (truthy (get_or dd "matchedUser" JNull)) eqn:Ht; cbn [negb].
    + split.
      * intros H. apply shape_raises in H as [H|[H|H]]; discriminate.
      * intros (_ & dd' & Hd & Ht'). injection Hd as <-. congruence.
    + split; [|reflexivity]. intros _.
      split; [discriminate|]. exists dd. split; [reflexivity|exact Ht].
Qed.

End Status200.


(** X6: of a reply with status 200 and an object as body, the fetch reads
    the [errors] and [data] members only: two such replies that agree on
    both give the same outcome, whatever else the bodies hold and whatever
    username was asked for. *)
Theorem fetch_reads_errors_and_data
    (post1 post2 : string -> json -> Z -> string + response)
    (user1 user2 : string) (r1 r2 : response)
    (o1 o2 : list (string * json)) :
  post1 LEETCODE_GRAPHQL_URL (payload user1) 12 = inr r1 ->
  post2 LEETCODE_GRAPHQL_URL (payload user2) 12 = inr r2 ->
  status_code r1 = 200 -> status_code r2 = 200 ->
  r_json r1 = Some (JObj o1) -> r_json r2 = Some (JObj o2) ->
  dict_get String.eqb o1 "errors" = dict_get String.eqb o2 "errors" ->
  dict_get String.eqb o1 "data" = dict_get String.eqb o2 "data" ->
  fetch_leetcode_user post1 user1 = fetch_leetcode_user post2 user2.
Proof.
  intros Hp1 Hp2 Hs1 Hs2 Hj1 Hj2 He Hd.
  rewrite (fetch_200_object _ _ _ _ Hp1 Hs1 Hj1).
  rewrite (fetch_200_object _ _ _ _ Hp2 Hs2 Hj2).
  pose proof (fun m => shape_reads_data o1 o2 m Hd) as Hshape.
  unfold errors_truthy, get_or. rewrite He, Hd.
  destruct (dict_get String.eqb o2 "errors") as [e|];
    [destruct (truthy e); [reflexivity|]|];
    (destruct (dict_get String.eqb o2 "data") as [[|b|z|f|s|l|dd]|];
     try reflexivity;
     match goal with
     | |- (if ?c then _ else _) = _ =>
         destruct c; [reflexivity|apply Hshape]
     end).
Qed.

Lemma errors_not_found_iff_witness :
  fetch_leetcode_user
    (reply 200 (Some (JObj [("errors", JStr "boom")]))) "alice"
  = Raise (HTTPException 404 "User not found or LeetCode error").
Proof.
  apply (proj2 (errors_not_found_iff
                  (reply 200 (Some (JObj [("errors", JStr "boom")])))
                  "alice"
                  {| status_code := 200;
                     r_json := Some (JObj [("errors", JStr "boom")]) |}
                  [("errors", JStr "boom")] eq_refl eq_refl eq_refl)).
  exists (JStr "boom"). split; reflexivity.
Defined.

Lemma user_not_found_iff_witness :
  fetch_leetcode_user
    (reply 200 (Some (JObj [("data", JObj [("matchedUser", JObj [])])])))
    "alice"
  = Raise (HTTPException 404 "User not found").
Proof.
  apply (proj2 (user_not_found_iff
                  (reply 200
                     (Some (JObj [("data", JObj [("matchedUser", JObj [])])])))
                  "alice"
                  {| status_code := 200;
                     r_json :=
                       Some (JObj [("data", JObj [("matchedUser", JObj [])])])
                  |}
                  [("data", JObj [("matchedUser", JObj [])])]
                  eq_refl eq_refl eq_refl)).
  split.
  - intros (e & He & _). discriminate.
  - exists [("matchedUser", JObj [])]. split; reflexivity.
Defined.

Lemma fetch_reads_errors_and_data_witness :
  fetch_leetcode_user
    (reply 200 (Some (JObj [("extensions", JInt 1);
                            ("data", JObj [("matchedUser", JNull)])])))
    "Alice"
  = fetch_leetcode_user
      (reply 200 (Some (JObj [("data", JObj [("matchedUser", JNull)])])))
      "alice".
Proof.
  eapply fetch_reads_errors_and_data; reflexivity.
Defined.

(** ** The members of the result *)

Lemma profile_member (m p : list (string * json)) (k : string) :
  get_or m "profile" (JObj []) = JObj p ->
  get_or p k JNull = or_null (path (JObj m) ["profile"; k]).
Proof.
  unfold get_or. cbn [path field]. intros Hp.
  destruct (dict_get String.eqb m "profile") as [x|].
  - subst x. cbn [path field].
    destruct (dict_get String.eqb p k); reflexivity.
  - injection Hp as <-. reflexivity.
Qed.

(** X7: the result of a successful fetch is a [dict] with the sixteen keys
    [username], [name], ..., [stats], [contest], in this order, whatever the
    upstream sent. *)
Theorem result_has_sixteen_keys
    (requests_post : string -> json -> Z -> string + response)
    (username : string) (res : json) :
  fetch_leetcode_user requests_post username = Ok res ->
  exists members, res = JObj members /\ dict_keys members = result_keys.
Proof.
  intros H.
  apply fetch_ok_shape in H
    as (r & o & dd & m & p & sg & am & tm & stats
        & _ & _ & _ & _ & _ & _ & _ & _ & _ & _ & ->).
  eexists. split; reflexivity.
Qed.

Lemma result_has_sixteen_keys_witness :
  exists res members,
    fetch_leetcode_user (reply 200 (Some sample_body)) "alice" = Ok res /\
    res = JObj members /\ dict_keys members = result_keys.
Proof.
  destruct (fetch_leetcode_user (reply 200 (Some sample_body)) "alice")
    as [res|e] eqn:Hf; [|vm_compute in Hf; discriminate].
  destruct (result_has_sixteen_keys _ _ _ Hf) as (members & H).
  exists res, members. split; [reflexivity|exact H].
Defined.

Section Members.

Variable requests_post : string -> json -> Z -> string + response.
Variable username : string.
Variable r : response.
Variable data res : json.
Hypothesis Hpost :
  requests_post LEETCODE_GRAPHQL_URL (payload username) 12 = inr r.
Hypothesis Hjson : r_json r = Some data.
Hypothesis Hfetch : fetch_leetcode_user requests_post username = Ok res.

(** X8: in a successful fetch, [username] is the [username] of the matched
    user, and [avatar], [ranking], [reputation], [starRating], [about],
    [company], [jobTitle], [school] and [country] are the members
    [userAvatar], [ranking], [reputation], [starRating], [aboutMe],
    [company], [jobTitle], [school] and [countryName] of its profile,
    unchanged; each is [null] when the upstream has no such member. *)
Theorem scalars_pass_through :
  field res "username"
  = Some (or_null (path data ["data"; "matchedUser"; "username"])) /\
  forall name upstream,
    In (name, upstream) profile_fields ->
    field res name
    = Some (or_null (path data ["data"; "matchedUser"; "profile"; upstream])).
Proof.
  destruct (fetched _ _ _ _ _ Hpost Hjson Hfetch)
    as (o & dd & m & p & stats & -> & Hd & Hm & Hp & ->).
  split.
  - rewrite (path_matched _ _ _ _ Hd Hm), <- get_or_null. reflexivity.
  - intros name upstream Hin.
    rewrite (path_matched _ _ _ _ Hd Hm), <- (profile_member _ _ _ Hp).
    unfold profile_fields in Hin. cbn [In] in Hin.
    repeat (destruct Hin as [Hin|Hin];
            [injection Hin as <- <-; reflexivity|]).
    contradiction.
Qed.

(** X9: in a successful fetch, [name] is the [realName] of the profile when
    that is truthy, and the [username] of the matched user otherwise: when
    [realName] is absent, [null] or the empty string. *)
Theorem name_is_real_name_or_username :
  let real :=
    or_null (path data ["data"; "matchedUser"; "profile"; "realName"]) in
  (truthy real = true -> field res "name" = Some real) /\
  (truthy real = false ->
   field res "name"
   = Some (or_null (path data ["data"; "matchedUser"; "username"]))).
Proof.
  destruct (fetched _ _ _ _ _ Hpost Hjson Hfetch)
    as (o & dd & m & p & stats & -> & Hd & Hm & Hp & ->).
  rewrite !(path_matched _ _ _ _ Hd Hm), <- (profile_member _ _ _ Hp),
    <- get_or_null.
  cbn zeta.
  cbn [field result_dict dict_get String.eqb Ascii.eqb Bool.eqb].
  split; intros ->; reflexivity.
Qed.

(** X10: in a successful fetch, [websites], [skills] and [badges] are the
    upstream [websites] and [skillTags] of the profile and [badges] of the
    matched user, unchanged, when these are truthy, and the empty list
    otherwise: when they are absent, [null] or empty. *)
Theorem lists_pass_through (name : string) (place : list string) :
  In (name, place) list_fields ->
  let v := or_null (path data ("data" :: "matchedUser" :: place)) in
  field res name = Some (if truthy v then v else JArr []).
Proof.
  destruct (fetched _ _ _ _ _ Hpost Hjson Hfetch)
    as (o & dd & m & p & stats & -> & Hd & Hm & Hp & ->).
  intros Hin. rewrite (path_matched _ _ _ _ Hd Hm).
  unfold list_fields in Hin. cbn [In] in Hin.
  destruct Hin as [Hin|[Hin|[Hin|[]]]]; injection Hin as <- <-; cbn zeta.
  - rewrite <- (profile_member _ _ _ Hp). reflexivity.
  - rewrite <- (profile_member _ _ _ Hp). reflexivity.
  - rewrite <- get_or_null. reflexivity.
Qed.

(** X11: in a successful fetch, [contest] is the upstream
    [userContestRanking], unchanged, when that is truthy, and [null]
    otherwise: when it is absent or [null], but also when it is an empty
    object. *)
Theorem contest_passes_through :
  let c := or_null (path data ["data"; "userContestRanking"]) in
  field res "contest" = Some (if truthy c then c else JNull).
Proof.
  destruct (fetched _ _ _ _ _ Hpost Hjson Hfetch)
    as (o & dd & m & p & stats & -> & Hd & Hm & Hp & ->).
  cbn [path field]. rewrite Hd. cbn [path field].
  replace (or_null
             match dict_get String.eqb dd "userContestRanking" with
             | Some x => Some x
             | None => None
             end)
    with (get_or dd "userContestRanking" JNull)
    by (unfold get_or;
        destruct (dict_get String.eqb dd "userContestRanking");
        reflexivity).
  reflexivity.
Qed.

End Members.

Lemma scalars_pass_through_witness :
  exists res,
    fetch_leetcode_user (reply 200 (Some rich_body)) "alice" = Ok res /\
    field res "username" = Some (JStr "alice") /\
    field res "avatar" = Some (JStr "https://example.org/a.png") /\
    field res "country" = Some JNull.
Proof.
  destruct (fetch_leetcode_user (reply 200 (Some rich_body)) "alice")
    as [res|e] eqn:Hf; [|vm_compute in Hf; discriminate].
  destruct (scalars_pass_through
              (reply 200 (Some rich_body)) "alice"
              {| status_code := 200; r_json := Some rich_body |}
              rich_body res eq_refl eq_refl Hf) as [Hu Hp].
  exists res. split; [reflexivity|]. split; [exact Hu|]. split.
  - apply (Hp "avatar" "userAvatar"). left. reflexivity.
  - apply (Hp "country" "countryName"). cbn. auto 10.
Defined.

Lemma name_is_real_name_or_username_witness :
  exists res,
    fetch_leetcode_user (reply 200 (Some rich_body)) "alice" = Ok res /\
    field res "name" = Some (JStr "Alice A.").
Proof.
  destruct (fetch_leetcode_user (reply 200 (Some rich_body)) "alice")
    as [res|e] eqn:Hf; [|vm_compute in Hf; discriminate].
  exists res. split; [reflexivity|].
  apply (name_is_real_name_or_username
           (reply 200 (Some rich_body)) "alice"
           {| status_code := 200; r_json := Some rich_body |}
           rich_body res eq_refl eq_refl Hf).
  reflexivity.
Defined.

Lemma lists_pass_through_witness :
  exists res,
    fetch_leetcode_user (reply 200 (Some rich_body)) "alice" = Ok res /\
    field res "websites" = Some (JArr [JStr "https://example.org"]) /\
    field res "skills" = Some (JArr []).
Proof.
  destruct (fetch_leetcode_user (reply 200 (Some rich_body)) "alice")
    as [res|e] eqn:Hf; [|vm_compute in Hf; discriminate].
  exists res. split; [reflexivity|]. split.
  - apply (lists_pass_through
             (reply 200 (Some rich_body)) "alice"
             {| status_code := 200; r_json := Some rich_body |}
             rich_body res eq_refl eq_refl Hf
             "websites" ["profile"; "websites"]).
    left. reflexivity.
  - apply (lists_pass_through
             (reply 200 (Some rich_body)) "alice"
             {| status_code := 200; r_json := Some rich_body |}
             rich_body res eq_refl eq_refl Hf
             "skills" ["profile"; "skillTags"]).
    right. left. reflexivity.
Defined.

Lemma contest_passes_through_witness :
  exists res,
    fetch_leetcode_user (reply 200 (Some rich_body)) "alice" = Ok res /\
    field res "contest" = Some (JObj [("rating", JInt 1500)]).
Proof.
  destruct (fetch_leetcode_user (reply 200 (Some rich_body)) "alice")
    as [res|e] eqn:Hf; [|vm_compute in Hf; discriminate].
  exists res. split; [reflexivity|].
  exact (contest_passes_through
           (reply 200 (Some rich_body)) "alice"
           {| status_code := 200; r_json := Some rich_body |}
           rich_body res eq_refl eq_refl Hf).
Defined.

(** ** [by_diff]: filing the items *)

Lemma keyed_ok (item : json) :
  keyed item = true ->
  exists k h,
    py_get item "difficulty" (JStr "All") = Ok k /\ hash_key k = Ok h.
Proof.
  destruct item as [|b|z|f|s|l|o]; try discriminate.
  cbn [keyed py_get]. unfold get_or.
  destruct (dict_get String.eqb o "difficulty") as [[|b|z|f|s|l|o']|];
    try discriminate; intros _; eexists; eexists;
    (split; [reflexivity|reflexivity]).
Qed.

Lemma not_keyed_raises (item : json) (rest : list json)
    (acc : list (hkey * json)) :
  keyed item = false ->
  by_diff_items (item :: rest) acc = Raise (filing_error item).
Proof.
  destruct item as [|b|z|f|s|l|o]; try reflexivity.
  cbn [keyed by_diff_items py_get bind filing_error]. unfold get_or.
  destruct (dict_get String.eqb o "difficulty") as [[|b|z|f|s|l|o']|];
    try discriminate; reflexivity.
Qed.

Lemma by_diff_items_outcome (items : list json) :
  forall acc,
    match find (fun item => negb (keyed item)) items with
    | None => exists m, by_diff_items items acc = Ok m
    | Some bad => by_diff_items items acc = Raise (filing_error bad)
    end.
Proof.
  induction items as [|item rest IH]; intros acc.
  - exists acc. reflexivity.
  - cbn [find]. destruct (keyed item) eqn:Hk; cbn [negb].
    + destruct (keyed_ok item Hk) as (k & h & Hget & Hh).
      cbn [by_diff_items]. rewrite Hget. cbn [bind]. rewrite Hh. cbn [bind].
      apply IH.
    + apply not_keyed_raises. exact Hk.
Qed.

(** X12: [by_diff] on a list succeeds when every item is an object whose
    [difficulty], if present, is not an array or an object; otherwise the
    first item that is not so decides: an [AttributeError] when it is not an
    object, a [TypeError] when its [difficulty] cannot be a key. *)
Theorem by_diff_outcome (items : list json) :
  match find (fun item => negb (keyed item)) items with
  | None => exists m, by_diff (JArr items) = Ok m
  | Some bad => by_diff (JArr items) = Raise (filing_error bad)
  end.
Proof.
  unfold by_diff. cbn [py_iter bind]. apply by_diff_items_outcome.
Qed.

Section DictKeys.
Context {K V : Type} (eqb : K -> K -> bool).
Hypothesis eqb_eq : forall a b, eqb a b = true <-> a = b.

Lemma dict_set_keys (d : list (K * V)) (k : K) (v : V) :
  dict_keys (dict_set eqb d k v)
  = if existsb (fun k' => eqb k' k) (dict_keys d) then dict_keys d
    else (dict_keys d ++ [k])%list.
Proof.
  unfold dict_keys. induction d as [|[k0 v0] d IH]; cbn.
  - reflexivity.
  - destruct (eqb k0 k) eqn:E; cbn; [reflexivity|].
    rewrite IH.
    destruct (existsb (fun k' => eqb k' k) (map fst d)); reflexivity.
Qed.

Lemma existsb_eqb_In (l : list K) (k : K) :
  existsb (fun k' => eqb k' k) l = true <-> In k l.
Proof.
  rewrite existsb_exists. split.
  - intros (x & Hin & Hx). apply eqb_eq in Hx. subst x. exact Hin.
  - intros Hin. exists k. split; [exact Hin|]. apply eqb_eq. reflexivity.
Qed.

Lemma dict_set_NoDup (d : list (K * V)) (k : K) (v : V) :
  NoDup (dict_keys d) -> NoDup (dict_keys (dict_set eqb d k v)).
Proof.
  intros Hd. rewrite dict_set_keys.
  destruct (existsb (fun k' => eqb k' k) (dict_keys d)) eqn:E;
    [exact Hd|].
  apply NoDup_app; [exact Hd|constructor; [intros []|constructor]|].
  intros x Hx [<-|[]].
  apply existsb_eqb_In in Hx. congruence.
Qed.

Lemma dict_set_In (d : list (K * V)) (k k' : K) (v : V) :
  In k' (dict_keys (dict_set eqb d k v)) <-> k' = k \/ In k' (dict_keys d).
Proof.
  rewrite dict_set_keys.
  destruct (existsb (fun k0 => eqb k0 k) (dict_keys d)) eqn:E.
  - apply existsb_eqb_In in E. split; [auto|].
    intros [->|H]; assumption.
  - rewrite in_app_iff. cbn. split.
    + intros [H|[<-|[]]]; auto.
    + intros [->|H]; auto.
Qed.

Lemma dict_set_length (d : list (K * V)) (k : K) (v : V) :
  (List.length (dict_set eqb d k v) <= S (List.length d))%nat.
Proof.
  induction d as [|[k0 v0] d IH]; cbn; [lia|].
  destruct (eqb k0 k); cbn; lia.
Qed.
End DictKeys.

Lemma by_diff_items_keys (items : list json) :
  forall acc m,
    by_diff_items items acc = Ok m ->
    NoDup (dict_keys acc) ->
    NoDup (dict_keys m) /\
    (forall k,
       In k (dict_keys m) <->
       In k (dict_keys acc) \/
       exists item, In item items /\ item_key item = Ok k) /\
    (List.length m <= List.length acc + List.length items)%nat.
Proof.
  induction items as [|item rest IH]; intros acc m H Hnd.
  - cbn in H. injection H as <-. repeat split; auto.
    + intros [H|(item & [] & _)]. exact H.
    + cbn. lia.
  - cbn [by_diff_items] in H.
    apply bind_ok in H as (j & Hj & H).
    apply bind_ok in H as (h & Hh & H).
    assert (Hkey : item_key item = Ok h)
      by (unfold item_key; rewrite Hj; exact Hh).
    destruct (IH _ _ H (dict_set_NoDup hkey_eqb hkey_eqb_eq acc h item Hnd))
      as (Hnd' & Hin & Hlen).
    split; [exact Hnd'|]. split.
    + intros k. rewrite Hin, (dict_set_In hkey_eqb hkey_eqb_eq). split.
      * intros [[->|Hk]|(it & Hit & Hk)].
        -- right. exists item. split; [left; reflexivity|exact Hkey].
        -- left. exact Hk.
        -- right. exists it. split; [right; exact Hit|exact Hk].
      * intros [Hk|(it & [<-|Hit] & Hk)].
        -- left. right. exact Hk.
        -- left. left. congruence.
        -- right. exists it. split; assumption.
    + pose proof (dict_set_length hkey_eqb acc h item). cbn [List.length].
      lia.
Qed.

(** X13: the mapping [by_diff] builds from a list has no key twice, its
    keys are exactly the keys of the items of the list, and it has at most
    as many entries as the list has items. *)
Theorem by_diff_keys (items : list json) (m : list (hkey * json)) :
  by_diff (JArr items) = Ok m ->
  NoDup (dict_keys m) /\
  (forall k,
     In k (dict_keys m) <->
     exists item, In item items /\ item_key item = Ok k) /\
  (List.length m <= List.length items)%nat.
Proof.
  unfold by_diff. cbn [py_iter bind]. intros H.
  destruct (by_diff_items_keys items [] m H (NoDup_nil _))
    as (Hnd & Hin & Hlen).
  split; [exact Hnd|]. split; [|exact Hlen].
  intros k. rewrite Hin. split; [intros [[]|H']; exact H'|auto].
Qed.

Lemma by_diff_keys_witness :
  let first := JObj [("difficulty", JStr "Easy"); ("count", JInt 7)] in
  let other := JObj [("count", JInt 3)] in
  let last := JObj [("difficulty", JStr "Easy"); ("count", JInt 10)] in
  exists m,
    by_diff (JArr [first; other; last]) = Ok m /\
    NoDup (dict_keys m) /\ (List.length m <= 3)%nat.
Proof.
  intros first other last.
  destruct (by_diff (JArr [first; other; last])) as [m|e] eqn:Hm;
    [|vm_compute in Hm; discriminate].
  exists m. split; [reflexivity|].
  destruct (by_diff_keys _ _ Hm) as (Hnd & _ & Hlen).
  split; [exact Hnd|exact Hlen].
Defined.

(** ** The statistics and the upstream lists *)

Lemma by_diff_list (lst : json) (m : list (hkey * json)) :
  by_diff lst = Ok m -> by_diff_items (list_at (Some lst)) [] = Ok m.
Proof.
  unfold by_diff.
  destruct lst as [|b|z|f|s|l|o]; cbn [py_iter bind list_at];
    try discriminate.
  - destruct s as [|c s]; [intros H; exact H|discriminate].
  - intros H. exact H.
  - destruct o as [|[k v] o]; [intros H; exact H|discriminate].
Qed.

Lemma lists_place (m sg : list (string * json)) (k : string) :
  get_or m "submitStatsGlobal" (JObj []) = JObj sg ->
  list_at (Some (get_or sg k (JArr [])))
  = list_at (path (JObj m) ["submitStatsGlobal"; k]).
Proof.
  unfold get_or. cbn [path field]. intros Hsg.
  destruct (dict_get String.eqb m "submitStatsGlobal") as [x|].
  - subst x. cbn [path field].
    destruct (dict_get String.eqb sg k); reflexivity.
  - injection Hsg as <-. reflexivity.
Qed.

Lemma map_get_member (items : list json) (m : list (hkey * json))
    (diff k : string) (v : json) :
  by_diff_items items [] = Ok m ->
  py_get (map_get m diff) k (JInt 0) = Ok v ->
  v = member_of_last items diff k.
Proof.
  intros Hm. unfold map_get, member_of_last.
  rewrite (by_diff_items_get _ _ _ (KStr diff) Hm). cbn [dict_get].
  destruct (last_with_key items (KStr diff)) as [item|].
  - destruct item; cbn [py_get]; intros H; try discriminate.
    injection H as <-. reflexivity.
  - cbn. intros H. injection H as <-. reflexivity.
Qed.

Section Statistics.

Variable requests_post : string -> json -> Z -> string + response.
Variable username : string.
Variable r : response.
Variable data res : json.
Hypothesis Hpost :
  requests_post LEETCODE_GRAPHQL_URL (payload username) 12 = inr r.
Hypothesis Hjson : r_json r = Some data.
Hypothesis Hfetch : fetch_leetcode_user requests_post username = Ok res.

(** X14: in a successful fetch, the bucket of each difficulty takes
    [solved] from the [count] of the last item of [acSubmissionNum] with
    that difficulty, and [total] and [submissions] from the [count] and
    [submissions] of the last such item of [totalSubmissionNum]; each is 0
    when the list has no such item or the item lacks the member, an item
    without [difficulty] counts for [All], and the rate is computed from
    these two counts. *)
Theorem stats_follow_lists (diff : string) :
  In diff difficulties ->
  let ac_items :=
    list_at (path data ["data"; "matchedUser"; "submitStatsGlobal";
                        "acSubmissionNum"]) in
  let total_items :=
    list_at (path data ["data"; "matchedUser"; "submitStatsGlobal";
                        "totalSubmissionNum"]) in
  exists f,
    acceptance_rate (member_of_last ac_items diff "count")
                    (member_of_last total_items diff "count") = Ok f /\
    path res ["stats"; lower diff]
    = Some (JObj [("solved", member_of_last ac_items diff "count");
                  ("total", member_of_last total_items diff "count");
                  ("acceptanceRate", JFloat f);
                  ("submissions",
                   member_of_last total_items diff "submissions")]).
Proof.
  destruct (fetch_ok_shape _ _ _ Hfetch)
    as (r' & o & dd & m & p & sg & am & tm & stats
        & Hp & _ & Hj & Hd & Hm & _ & Hsg & Ham & Htm & Hst & ->).
  rewrite Hpost in Hp. injection Hp as <-.
  rewrite Hjson in Hj. injection Hj as ->.
  rewrite !(path_matched _ _ _ _ Hd Hm), <- !(lists_place _ _ _ Hsg).
  apply by_diff_list in Ham, Htm.
  set (ac_items := list_at (Some (get_or sg "acSubmissionNum" (JArr [])))) in *.
  set (total_items :=
         list_at (Some (get_or sg "totalSubmissionNum" (JArr [])))) in *.
  apply build_stats_ok in Hst
    as (all & easy & medium & hard & Ha & He & Hme & Hh & ->).
  intros Hin. cbn zeta. rewrite path_stats.
  unfold difficulties in Hin. cbn [In] in Hin.
  destruct Hin as [<-|[<-|[<-|[<-|[]]]]];
    match goal with
    | H : bucket am tm ?d = Ok ?b
      |- context [member_of_last _ ?d _] =>
        apply bucket_ok in H
          as (ac & tot & sub & f & Hac & Htot & Hsub & Hf & ->);
        apply (map_get_member _ _ _ _ _ Ham) in Hac;
        apply (map_get_member _ _ _ _ _ Htm) in Htot;
        apply (map_get_member _ _ _ _ _ Htm) in Hsub;
        subst ac tot sub; exists f; split; [exact Hf|reflexivity]
    end.
Qed.

(** X15: a fetch succeeds only on a reply whose [matchedUser] is a
    non-empty object and whose [profile] and [submitStatsGlobal] are absent
    or objects: when either is [null] (or any other value) the fetch
    fails. *)
Theorem success_needs_objects :
  (exists m,
     path data ["data"; "matchedUser"] = Some (JObj m) /\ m <> []) /\
  absent_or_object (path data ["data"; "matchedUser"; "profile"]) /\
  absent_or_object (path data ["data"; "matchedUser"; "submitStatsGlobal"]).
Proof.
  destruct (fetch_ok _ _ _ Hfetch)
    as (r0 & data0 & d0 & matched & Hp0 & _ & Hj0 & _ & Hd0 & Hm0 & Ht & _).
  destruct (fetch_ok_shape _ _ _ Hfetch)
    as (r' & o & dd & m & p & sg & am & tm & stats
        & Hp & _ & Hj & Hd & Hm & Hpr & Hsg & _ & _ & _ & _).
  rewrite Hpost in Hp, Hp0. injection Hp as <-. injection Hp0 as <-.
  rewrite Hjson in Hj, Hj0. injection Hj as ->. injection Hj0 as <-.
  cbn [py_get] in Hd0. injection Hd0 as <-.
  unfold get_or in Hm0. rewrite Hd in Hm0. cbn [py_get] in Hm0.
  unfold get_or in Hm0. rewrite Hm in Hm0. injection Hm0 as <-.
  rewrite !(path_matched _ _ _ _ Hd Hm).
  split; [|split].
  - exists m. split; [reflexivity|]. intros ->. discriminate.
  - unfold absent_or_object, get_or in *. cbn [path field].
    destruct (dict_get String.eqb m "profile") as [x|]; [|left; reflexivity].
    right. exists p. congruence.
  - unfold absent_or_object, get_or in *. cbn [path field].
    destruct (dict_get String.eqb m "submitStatsGlobal") as [x|];
      [|left; reflexivity].
    right. exists sg. congruence.
Qed.

End Statistics.

Lemma stats_follow_lists_witness :
  exists res,
    fetch_leetcode_user (reply 200 (Some rich_body)) "alice" = Ok res /\
    path res ["stats"; "all"]
    = Some (JObj [("solved", JInt 25);
                  ("total", JInt 40);
                  ("acceptanceRate",
                   JFloat (S754_finite false 8796093022208000 (-47)));
                  ("submissions", JInt 90)]).
Proof.
  destruct (fetch_leetcode_user (reply 200 (Some rich_body)) "alice")
    as [res|e] eqn:Hf; [|vm_compute in Hf; discriminate].
  exists res. split; [reflexivity|].
  destruct (stats_follow_lists
              (reply 200 (Some rich_body)) "alice"
              {| status_code := 200; r_json := Some rich_body |}
              rich_body res eq_refl eq_refl Hf "All"
              (or_introl eq_refl)) as (f & Hrate & Hb).
  vm_compute in Hrate. injection Hrate as <-. exact Hb.
Defined.

Lemma success_needs_objects_witness :
  exists res,
    fetch_leetcode_user (reply 200 (Some rich_body)) "alice" = Ok res /\
    absent_or_object (path rich_body ["data"; "matchedUser"; "profile"]).
Proof.
  destruct (fetch_leetcode_user (reply 200 (Some rich_body)) "alice")
    as [res|e] eqn:Hf; [|vm_compute in Hf; discriminate].
  exists res. split; [reflexivity|].
  exact (proj1 (proj2 (success_needs_objects
                         (reply 200 (Some rich_body)) "alice"
                         {| status_code := 200; r_json := Some rich_body |}
                         rich_body res eq_refl eq_refl Hf))).
Defined.

(** ** A well-formed reply is shaped *)

Lemma forallb_find_none {A : Type} (f : A -> bool) (l : list A) :
  forallb f l = true -> find (fun x => negb (f x)) l = None.
Proof.
  induction l as [|a l IH]; cbn; [reflexivity|].
  destruct (f a); cbn; [exact IH|discriminate].
Qed.

Lemma place_object (m : list (string * json)) (k : string) :
  absent_or_object (path (JObj m) [k]) ->
  exists p, get_or m k (JObj []) = JObj p.
Proof.
  unfold absent_or_object, get_or. cbn [path field].
  destruct (dict_get String.eqb m k) as [x|].
  - intros [H|(p & H)]; [discriminate|]. injection H as ->. eauto.
  - intros _. eauto.
Qed.

Lemma place_array (m sg : list (string * json)) (k : string) :
  get_or m "submitStatsGlobal" (JObj []) = JObj sg ->
  absent_or_array (path (JObj m) ["submitStatsGlobal"; k]) ->
  get_or sg k (JArr [])
  = JArr (list_at (path (JObj m) ["submitStatsGlobal"; k])).
Proof.
  unfold absent_or_array, get_or. cbn [path field]. intros Hsg.
  destruct (dict_get String.eqb m "submitStatsGlobal") as [x|].
  - subst x. cbn [path field].
    destruct (dict_get String.eqb sg k) as [v|]; [|reflexivity].
    intros [H|(l & H)]; [discriminate|]. injection H as ->. reflexivity.
  - injection Hsg as <-. intros _. reflexivity.
Qed.

Lemma keyed_list_filed (items : list json) :
  forallb keyed items = true -> exists m, by_diff_items items [] = Ok m.
Proof.
  intros H. pose proof (by_diff_items_outcome items []) as Ho.
  rewrite (forallb_find_none _ _ H) in Ho. exact Ho.
Qed.

(** What the loop finds under a difficulty is an object. *)
Lemma map_get_object (items : list json) (m : list (hkey * json))
    (diff : string) :
  by_diff_items items [] = Ok m ->
  exists o,
    map_get m diff = JObj o /\
    forall k, get_or o k (JInt 0) = member_of_last items diff k.
Proof.
  intros Hm. unfold map_get, member_of_last.
  rewrite (by_diff_items_get _ _ _ (KStr diff) Hm). cbn [dict_get].
  destruct (last_with_key items (KStr diff)) as [item|] eqn:Hl.
  - unfold last_with_key in Hl. apply find_some in Hl as [_ Hk].
    unfold has_key, item_key in Hk.
    destruct item as [|b|z|f|s|l|o]; try discriminate.
    exists o. split; reflexivity.
  - exists []. split; reflexivity.
Qed.

Lemma rate_of_counts (ac tot : Z) :
  0 <= ac <= tot -> exists f, acceptance_rate (JInt ac) (JInt tot) = Ok f.
Proof.
  intros Hc. unfold acceptance_rate. cbn [truthy].
  destruct (tot =? 0) eqn:Ht; cbn [negb]; [eauto|].
  apply Z.eqb_neq in Ht.
  destruct (acceptance_rate_bounds ac tot Hc ltac:(lia)) as (f & Hf & _).
  exists f. exact Hf.
Qed.

Lemma bucket_succeeds (ac_items total_items : list json)
    (am tm : list (hkey * json)) (diff : string) (ac tot : Z) :
  by_diff_items ac_items [] = Ok am ->
  by_diff_items total_items [] = Ok tm ->
  member_of_last ac_items diff "count" = JInt ac ->
  member_of_last total_items diff "count" = JInt tot ->
  0 <= ac <= tot ->
  exists b, bucket am tm diff = Ok b.
Proof.
  intros Ham Htm Hac Htot Hc. unfold bucket.
  destruct (map_get_object _ _ diff Ham) as (oa & -> & Ha).
  destruct (map_get_object _ _ diff Htm) as (ot & -> & Ht).
  cbn [py_get bind]. rewrite Ha, Ht, Hac, Htot.
  destruct (rate_of_counts ac tot Hc) as (f & ->). cbn [bind]. eauto.
Qed.

Section WellFormed.

Variable requests_post : string -> json -> Z -> string + response.
Variable username : string.
Variable r : response.
Variable o m : list (string * json).
Hypothesis Hpost :
  requests_post LEETCODE_GRAPHQL_URL (payload username) 12 = inr r.
Hypothesis Hstatus : status_code r = 200.
Hypothesis Hjson : r_json r = Some (JObj o).
Hypothesis Herrors : ~ errors_reported o.
Hypothesis Hmatched : path (JObj o) ["data"; "matchedUser"] = Some (JObj m).
Hypothesis Hnonempty : m <> [].
Hypothesis Hprofile : absent_or_object (path (JObj m) ["profile"]).
Hypothesis Hstats : absent_or_object (path (JObj m) ["submitStatsGlobal"]).

Let ac_place := path (JObj m) ["submitStatsGlobal"; "acSubmissionNum"].
Let total_place := path (JObj m) ["submitStatsGlobal"; "totalSubmissionNum"].

Hypothesis Hac : absent_or_array ac_place.
Hypothesis Htotal : absent_or_array total_place.
Hypothesis Hac_items : forallb keyed (list_at ac_place) = true.
Hypothesis Htotal_items : forallb keyed (list_at total_place) = true.
Hypothesis Hcounts :
  forall diff,
    In diff difficulties ->
    exists ac tot,
      member_of_last (list_at ac_place) diff "count" = JInt ac /\
      member_of_last (list_at total_place) diff "count" = JInt tot /\
      0 <= ac <= tot.

(** X16: the fetch succeeds on every well-formed reply: status 200, no
    errors reported, [matchedUser] a non-empty object, [profile] and
    [submitStatsGlobal] absent or objects, the two lists absent or arrays of
    objects with a hashable [difficulty], and, for each of the four
    difficulties, integer counts with [0 <= solved <= total]. *)
Theorem well_formed_reply_succeeds :
  exists res, fetch_leetcode_user requests_post username = Ok res.
Proof.
  rewrite (fetch_200_object _ _ _ _ Hpost Hstatus Hjson).
  destruct (errors_truthy o) eqn:He;
    [apply errors_truthy_iff in He; contradiction|].
  cbn [path field] in Hmatched.
  assert (Hdd : exists dd,
             get_or o "data" (JObj []) = JObj dd /\
             get_or dd "matchedUser" JNull = JObj m).
  { unfold get_or.
    destruct (dict_get String.eqb o "data") as [[|b|z|f|s|l|dd]|];
      try discriminate.
    exists dd. split; [reflexivity|]. cbn [path field] in Hmatched.
    unfold get_or.
    destruct (dict_get String.eqb dd "matchedUser"); [congruence|discriminate].
  }
  destruct Hdd as (dd & Hd & Hm). rewrite Hd, Hm.
  assert (Ht : truthy (JObj m) = true) by (destruct m; [contradiction|reflexivity]).
  rewrite Ht. cbn [negb].
  destruct (place_object _ _ Hprofile) as (p & Hp).
  destruct (place_object _ _ Hstats) as (sg & Hsg).
  pose proof (place_array _ _ _ Hsg Hac) as Hal.
  pose proof (place_array _ _ _ Hsg Htotal) as Htl.
  destruct (keyed_list_filed _ Hac_items) as (am & Ham).
  destruct (keyed_list_filed _ Htotal_items) as (tm & Htm).
  assert (Hb : forall diff, In diff difficulties ->
                 exists b, bucket am tm diff = Ok b).
  { intros diff Hin. destruct (Hcounts diff Hin) as (ac & tot & H1 & H2 & H3).
    exact (bucket_succeeds _ _ _ _ _ _ _ Ham Htm H1 H2 H3). }
  destruct (Hb "All") as (b1 & Hb1); [cbn; auto|].
  destruct (Hb "Easy") as (b2 & Hb2); [cbn; auto|].
  destruct (Hb "Medium") as (b3 & Hb3); [cbn; auto|].
  destruct (Hb "Hard") as (b4 & Hb4); [cbn; auto|].
  unfold shape. cbn [py_get bind]. rewrite Hd. cbn [py_get bind].
  rewrite Hp, Hsg. cbn [py_get bind]. rewrite Hal, Htl.
  unfold by_diff. cbn [py_iter bind]. fold ac_place total_place.
  rewrite Ham, Htm. cbn [bind].
  unfold difficulties. cbn [build_stats]. rewrite Hb1. cbn [bind].
  rewrite Hb2. cbn [bind]. rewrite Hb3. cbn [bind]. rewrite Hb4.
  cbn [bind].
  destruct (truthy (get_or p "realName" JNull)); cbn [bind py_get];
    eexists; reflexivity.
Qed.

End WellFormed.

Lemma well_formed_reply_succeeds_witness :
  exists res,
    fetch_leetcode_user (reply 200 (Some rich_body)) "alice" = Ok res.
Proof.
  eapply (well_formed_reply_succeeds
            (reply 200 (Some rich_body)) "alice"
            {| status_code := 200; r_json := Some rich_body |}).
  - reflexivity.
  - reflexivity.
  - unfold rich_body. reflexivity.
  - intros (e & He & _). discriminate.
  - vm_compute. reflexivity.
  - discriminate.
  - right. eexists. vm_compute. reflexivity.
  - right. eexists. vm_compute. reflexivity.
  - right. eexists. vm_compute. reflexivity.
  - right. eexists. vm_compute. reflexivity.
  - vm_compute. reflexivity.
  - vm_compute. reflexivity.
  - intros diff [<-|[<-|[<-|[<-|[]]]]].
    + exists 25, 40. vm_compute. repeat split; discriminate.
    + exists 20, 20. vm_compute. repeat split; discriminate.
    + exists 0, 0. vm_compute. repeat split; discriminate.
    + exists 0, 0. vm_compute. repeat split; discriminate.
Defined.

(** * Further properties of [test_database] *)

(** X17: the probe reports [connection_status] "Connected" exactly when it
    obtained a handle (the import gave a non-null [db] and reading its name
    did not raise), also when the connectivity check then raises; otherwise
    the status stays "Not Connected". *)
Theorem connection_status_reported (env : Probe.environment) :
  exists response,
    Probe.test_database env = inr response /\
    dict_get String.eqb response "connection_status"
    = Some (JStr match handle_ready env with
                 | Some _ => "Connected"
                 | None => "Not Connected"
                 end).
Proof.
  destruct env as [imp env]. unfold handle_ready.
  cbn [Probe.import_db].
  destruct imp as [[msg|msg]|[db|]]; try (eexists; split; reflexivity).
  destruct db as [name lcn]. cbn [Probe.db_name].
  destruct name as [|v|[msg|msg]]; try (eexists; split; reflexivity);
    destruct lcn as [e|cols]; eexists; split; reflexivity.
Qed.

(** X18: the probe lists the first ten of the names that
    [list_collection_names] returns, in the same order, when it obtained a
    handle and the call returned; in every other case [collections] is
    empty. *)
Theorem collections_reported (env : Probe.environment) :
  exists response,
    Probe.test_database env = inr response /\
    dict_get String.eqb response "collections"
    = Some (JArr match handle_ready env with
                 | Some db =>
                     match Probe.list_collection_names db with
                     | inr names => firstn 10 names
                     | inl _ => []
                     end
                 | None => []
                 end).
Proof.
  destruct env as [imp env]. unfold handle_ready.
  cbn [Probe.import_db].
  destruct imp as [[msg|msg]|[db|]]; try (eexists; split; reflexivity).
  destruct db as [name lcn]. cbn [Probe.db_name Probe.list_collection_names].
  destruct name as [|v|[msg|msg]]; try (eexists; split; reflexivity);
    destruct lcn as [e|cols]; eexists; split; reflexivity.
Qed.

(** X19: the probe reports the database as "Connected & Working" exactly
    when it obtained a handle and [list_collection_names] returned; an
    exception anywhere on the way shows in the status. *)
Theorem working_iff (env : Probe.environment) :
  exists response,
    Probe.test_database env = inr response /\
    (dict_get String.eqb response "database"
     = Some (JStr "✅ Connected & Working")
     <->
     exists db names,
       handle_ready env = Some db /\
       Probe.list_collection_names db = inr names).
Proof.
  destruct env as [imp env]. unfold handle_ready.
  cbn [Probe.import_db].
  destruct imp as [[msg|msg]|[db|]];
    try (eexists; split; [reflexivity|];
         split; [discriminate|intros (db & names & H & _); discriminate]).
  destruct db as [name lcn]. cbn [Probe.db_name].
  destruct name as [|v|[msg|msg]];
    try (eexists; split; [reflexivity|];
         split; [discriminate|intros (db & names & H & _); discriminate]);
    destruct lcn as [e|cols]; eexists; (split; [reflexivity|]); split;
    try discriminate;
    try (intros (db & names & H & Hn); injection H as <-; discriminate);
    intros _; eexists; eexists; split; reflexivity.
Qed.

(** * The rate at the ends *)

Lemma round_pos_same (n : positive) :
  Float.round_pos n n = Float.RFinite 4503599627370496 (-52).
Proof.
  unfold Float.round_pos.
  assert (He : Float.ilog2 n n = 0).
  { unfold Float.ilog2. rewrite Z.sub_diag. cbn [Float.scale Z.leb Z.compare].
    change (2 ^ 0) with 1. rewrite Z.mul_1_r, Z.leb_refl. reflexivity. }
  rewrite He.
  change (Float.ulp_exp 0) with (-52).
  change (Float.scale (Zpos n) (Zpos n) (-52))
    with (Zpos n * 2 ^ 52, Zpos n).
  assert (Hr : Float.rne (Zpos n * 2 ^ 52) (Zpos n) = 2 ^ 52).
  { unfold Float.rne. rewrite (Z.mul_comm (Zpos n)).
    rewrite Z_mod_mult, Z_div_mult by lia. reflexivity. }
  cbv beta iota zeta. rewrite Hr. reflexivity.
Qed.

(** X20: in the result of a successful fetch, a bucket whose integer counts
    are equal and positive has the rate [100.0], and a bucket with nothing
    solved out of a positive total has the rate [0.0]. *)
Theorem rate_at_the_ends
    (requests_post : string -> json -> Z -> string + response)
    (username : string) (res : json) (k : string) (b : json) (ac tot : Z) :
  fetch_leetcode_user requests_post username = Ok res ->
  path res ["stats"; k] = Some b ->
  field b "solved" = Some (JInt ac) ->
  field b "total" = Some (JInt tot) ->
  0 < tot ->
  (ac = tot -> field b "acceptanceRate" = Some (JFloat hundred)) /\
  (ac = 0 -> field b "acceptanceRate" = Some (JFloat zero)).
Proof.
  intros Hfetch Hb Hac Htot Hpos.
  destruct (bucket_rate _ _ _ Hfetch k b Hb)
    as (ac' & tot' & f & sub & Hf & ->).
  cbn in Hac, Htot. injection Hac as ->. injection Htot as ->.
  unfold acceptance_rate in Hf. cbn [truthy] in Hf.
  replace (tot =? 0) with false in Hf by (symmetry; apply Z.eqb_neq; lia).
  cbn [negb py_truediv as_num] in Hf.
  split; intros ->.
  - unfold Float.int_truediv in Hf. destruct tot as [|t|t]; try lia.
    cbn [Z.abs Z.to_pos Z.ltb Z.compare xorb] in Hf.
    rewrite round_pos_same in Hf. cbn [Float.to_float bind] in Hf.
    vm_compute in Hf. injection Hf as <-. reflexivity.
  - unfold Float.int_truediv in Hf. destruct tot as [|t|t]; try lia.
    vm_compute in Hf. injection Hf as <-. reflexivity.
Qed.

Lemma rate_at_the_ends_witness :
  exists res b,
    fetch_leetcode_user (reply 200 (Some rich_body)) "alice" = Ok res /\
    path res ["stats"; "easy"] = Some b /\
    field b "acceptanceRate" = Some (JFloat hundred).
Proof.
  destruct (fetch_leetcode_user (reply 200 (Some rich_body)) "alice")
    as [res|e] eqn:Hres; [|vm_compute in Hres; discriminate].
  destruct (path res ["stats"; "easy"]) as [b|] eqn:Hb;
    [|vm_compute in Hres; injection Hres as <-; vm_compute in Hb;
      discriminate].
  assert (Hs : field b "solved" = Some (JInt 20) /\
               field b "total" = Some (JInt 20)).
  { vm_compute in Hres. injection Hres as <-. vm_compute in Hb.
    injection Hb as <-. split; reflexivity. }
  destruct Hs as [Hac Htot].
  destruct (rate_at_the_ends _ _ _ _ _ 20 20 Hres Hb Hac Htot ltac:(lia))
    as [Hfull _].
  exists res, b. split; [reflexivity|]. split; [exact Hb|].
  apply Hfull. reflexivity.
Defined.

(** * Replies of another shape *)

Section OtherShapes.

Variable requests_post : string -> json -> Z -> string + response.
Variable username : string.
Variable r : response.
Hypothesis Hpost :
  requests_post LEETCODE_GRAPHQL_URL (payload username) 12 = inr r.
Hypothesis Hstatus : status_code r = 200.

(** X21: on a reply with status 200 whose body is JSON but not an object
    (null, a boolean, a number, a string or an array), the fetch ends in a
    [TypeError] or an [AttributeError], neither a result nor an
    [HTTPException]; for null, booleans and numbers it is the [TypeError] of
    the test ["errors" in data]. *)
Theorem non_object_body_fails (data : json) :
  r_json r = Some data ->
  (forall o, data <> JObj o) ->
  (fetch_leetcode_user requests_post username = Raise TypeError \/
   fetch_leetcode_user requests_post username = Raise AttributeError) /\
  (match data with
   | JNull | JBool _ | JInt _ | JFloat _ => True
   | _ => False
   end ->
   fetch_leetcode_user requests_post username = Raise TypeError).
Proof.
  intros Hj Hno. rewrite (status_200 _ _ _ Hpost _ Hstatus Hj).
  unfold has_errors.
  destruct data as [|b|z|f|s|l|o]; cbn [py_in bind];
    try (split; [left; reflexivity|intros _; reflexivity]).
  - split; [|intros []].
    destruct (str_contains "errors" s); [left|right]; reflexivity.
  - split; [|intros []].
    destruct (existsb (is_str "errors") l); [left|right]; reflexivity.
  - exfalso. exact (Hno o eq_refl).
Qed.

(** X22: on a reply with status 200 whose body is an object reporting no
    errors, a [data] member that is present but not an object ([null], for
    one) makes the fetch end in an [AttributeError]: the default of
    [data.get("data", {})] only stands in for an absent member. *)
Theorem data_member_not_object (o : list (string * json)) (v : json) :
  r_json r = Some (JObj o) ->
  ~ errors_reported o ->
  dict_get String.eqb o "data" = Some v ->
  (forall dd, v <> JObj dd) ->
  fetch_leetcode_user requests_post username = Raise AttributeError.
Proof.
  intros Hj He Hd Hv.
  rewrite (fetch_200_object _ _ _ _ Hpost Hstatus Hj).
  destruct (errors_truthy o) eqn:Het;
    [apply errors_truthy_iff in Het; contradiction|].
  unfold get_or. rewrite Hd.
  destruct v as [|b|z|f|s|l|dd]; try reflexivity.
  exfalso. exact (Hv dd eq_refl).
Qed.

End OtherShapes.

Lemma non_object_body_fails_witness :
  fetch_leetcode_user (reply 200 (Some (JArr []))) "alice"
  = Raise AttributeError /\
  fetch_leetcode_user (reply 200 (Some JNull)) "alice" = Raise TypeError.
Proof.
  split.
  - destruct (proj1 (non_object_body_fails
                       (reply 200 (Some (JArr []))) "alice"
                       {| status_code := 200; r_json := Some (JArr []) |}
                       eq_refl eq_refl (JArr []) eq_refl
                       ltac:(intros o H; discriminate))) as [H|H].
    + discriminate H.
    + exact H.
  - apply (proj2 (non_object_body_fails
                    (reply 200 (Some JNull)) "alice"
                    {| status_code := 200; r_json := Some JNull |}
                    eq_refl eq_refl JNull eq_refl
                    ltac:(intros o H; discriminate))).
    exact I.
Defined.

Lemma data_member_not_object_witness :
  fetch_leetcode_user (reply 200 (Some (JObj [("data", JNull)]))) "alice"
  = Raise AttributeError.
Proof.
  apply (data_member_not_object
           (reply 200 (Some (JObj [("data", JNull)]))) "alice"
           {| status_code := 200; r_json := Some (JObj [("data", JNull)]) |}
           eq_refl eq_refl [("data", JNull)] JNull eq_refl).
  - intros (e & He & _). discriminate.
  - reflexivity.
  - intros dd H. discriminate.
Defined.
